(** * Linuwu Sense fan curve controller

    A shallow embedding of [Fan-Curve/fan-curve.py] and the properties of its
    control cycle: sensor sampling, the piecewise-linear curve with its
    hysteresis band, the actuator encoding and one iteration of the loop.

    The embedding has two layers.
    - The exact layer (modules [ThermalMonitor], [FanCurve],
      [FanCurveController], [FanCurveFile]): a temperature (an [int] or a
      [float] in the source) is a rational [Q] and its arithmetic is exact;
      a sensor file opens or fails with one of the errors that [read_temp]
      catches; the configuration has its two curves.
    - The machine layer (modules [PyNumber], [ThermalMonitor64],
      [FanCurve64], [Status]): a number is a Python [int] or a binary64
      [float], with the rounding, the conversions and the exceptions of the
      interpreter's operators; the read of a sensor file may fail with any
      [OSError]. What depends on rounding, or on an exception that nothing
      catches, is stated in this layer.

    Conventions of both layers.
    - Python [int] is [Z].
    - Text read from sysfs is a [string] of ASCII characters.
    - A curve point is a record of its two keys; duties and the hysteresis
      band are integers, as in the shipped profiles.
    - Integers are unbounded; the interpreter's limit on the number of
      digits it converts to and from text is not part of the model.
    - A Python call that can raise returns a [result]; an exception caught
      by the source's own [try] is folded into the value it returns there. *)

From Stdlib Require Import ZArith QArith Qabs Qround List Bool Lia Lqa.
From Stdlib Require Import Ascii String DecimalString DecimalZ DecimalPos.
From Stdlib Require Import SpecFloat.
Import ListNotations.

Local Open Scope Z_scope.

(** ** Python text primitives used by the source *)

Module Py.

Local Open Scope char_scope.

(** [str.isspace] on one ASCII character: TAB, LF, VT, FF, CR, FS, GS, RS,
    US and space. *)
Definition is_space (c : ascii) : bool :=
  let n := N_of_ascii c in
  ((9 <=? n) && (n <=? 13) || (28 <=? n) && (n <=? 32))%N.

(** The value of an ASCII decimal digit, from its code 48 to 57. *)
Definition digit_of_ascii (c : ascii) : option Z :=
  let n := Z.of_N (N_of_ascii c) in
  if ((48 <=? n) && (n <=? 57))%Z then Some (n - 48)%Z else None.

Fixpoint lstrip (s : string) : string :=
  match s with
  | EmptyString => EmptyString
  | String c s' => if is_space c then lstrip s' else s
  end.

Fixpoint rstrip (s : string) : string :=
  match s with
  | EmptyString => EmptyString
  | String c s' =>
      match rstrip s' with
      | EmptyString => if is_space c then EmptyString else String c EmptyString
      | r => String c r
      end
  end.

(** [s.strip()] *)
Definition strip (s : string) : string := rstrip (lstrip s).

(** [s.split(',')]: never empty, one more field than there are commas. *)
Fixpoint split_comma (s : string) : list string :=
  match s with
  | EmptyString => [EmptyString]
  | String c s' =>
      if Ascii.eqb c "," then EmptyString :: split_comma s'
      else match split_comma s' with
           | f :: fs => String c f :: fs
           | [] => [String c EmptyString]
           end
  end.

(** The digit part of an integer literal accepted by [int(str)]: digits,
    with single underscores allowed between two digits. [after_digit] says
    whether the previous character was a digit. *)
Fixpoint int_digits (s : string) (acc : Z) (after_digit : bool) : option Z :=
  match s with
  | EmptyString => if after_digit then Some acc else None
  | String c s' =>
      match digit_of_ascii c with
      | Some d => int_digits s' (10 * acc + d) true
      | None =>
          if Ascii.eqb c "_" && after_digit then int_digits s' acc false
          else None
      end
  end.

(** The characters [int] skips around a literal, those of C's [isspace]:
    TAB, LF, VT, FF, CR and space. FS, GS, RS and US are whitespace for
    [str.strip] but not here. *)
Definition is_blank (c : ascii) : bool :=
  let n := N_of_ascii c in
  ((9 <=? n) && (n <=? 13) || (n =? 32))%N.

Fixpoint skip_blanks (s : string) : string :=
  match s with
  | EmptyString => EmptyString
  | String c s' => if is_blank c then skip_blanks s' else s
  end.

Fixpoint drop_final_blanks (s : string) : string :=
  match s with
  | EmptyString => EmptyString
  | String c s' =>
      match drop_final_blanks s' with
      | EmptyString => if is_blank c then EmptyString else String c EmptyString
      | r => String c r
      end
  end.

(** [int(s)] in base ten; [None] stands for [ValueError]. Blanks around
    the literal are skipped, one sign may precede the digits. *)
Definition int_of_str (s : string) : option Z :=
  match drop_final_blanks (skip_blanks s) with
  | EmptyString => None
  | String c t =>
      if Ascii.eqb c "+" then int_digits t 0 false
      else if Ascii.eqb c "-" then option_map Z.opp (int_digits t 0 false)
      else int_digits (String c t) 0 false
  end.

(** [str(n)] for an [int], as used by an f-string field. *)
Definition str_of_int (n : Z) : string :=
  NilZero.string_of_int (Z.to_int n).

(** [int(x)] for a number: rounds toward zero. *)
Definition trunc (x : Q) : Z :=
  if Qle_bool 0 x then Qfloor x else Qceiling x.

(** [a > b] on numbers. *)
Definition Qgtb (a b : Q) : bool := negb (Qle_bool a b).

End Py.

Local Open Scope string_scope.
Local Open Scope Z_scope.

(** ** Outcome of a call that may raise *)

Inductive exn : Type :=
| IndexError
| TypeError
| ValueError
| OverflowError
| ZeroDivisionError
| OSError
| SystemExit (code : Z).

Inductive result (A : Type) : Type :=
| Ok (a : A)
| Raise (e : exn).

Arguments Ok {A} a.
Arguments Raise {A} e.

Definition rbind {A B} (r : result A) (k : A -> result B) : result B :=
  match r with
  | Ok a => k a
  | Raise e => Raise e
  end.

(** [l[i]] for a natural index. *)
Definition index {A} (l : list A) (i : nat) : result A :=
  match nth_error l i with
  | Some a => Ok a
  | None => Raise IndexError
  end.

(** [l[-1]] *)
Definition index_last {A} (l : list A) : result A :=
  index l (List.length l - 1).

(** ** class ThermalMonitor *)

Module ThermalMonitor.

(** What [open(path, 'r')] followed by [read()] gives: one of the two
    failures [read_temp] catches, or the text of the file. *)
Inductive file : Type :=
| FileNotFound
| PermissionDenied
| Content (s : string).

(** The part of the host the monitor looks at: reading a path, the test
    [os.path.exists] and the expansion [glob.glob]. *)
Record host : Type := {
  read : string -> file;
  path_exists : string -> bool;
  glob : string -> list string
}.

Definition cpu_thermal_paths : list string :=
  [ "/sys/class/thermal/thermal_zone0/temp";
    "/sys/class/thermal/thermal_zone1/temp";
    "/sys/class/hwmon/hwmon0/temp1_input";
    "/sys/class/hwmon/hwmon1/temp1_input" ].

Definition gpu_thermal_paths : list string :=
  [ "/sys/class/drm/card0/device/hwmon/hwmon*/temp1_input";
    "/sys/class/hwmon/hwmon*/temp1_input" ].

(** Millidegrees above 200, degrees otherwise. *)
Definition normalize (temp : Z) : Q :=
  if 200 <? temp then (temp # 1000)%Q else inject_Z temp.

Definition read_temp (h : host) (path : string) : option Q :=
  match read h path with
  | Content s =>
      match Py.int_of_str (Py.strip s) with
      | Some temp => Some (normalize temp)
      | None => None
      end
  | FileNotFound | PermissionDenied => None
  end.

(** ['*' in pattern] *)
Fixpoint has_star (pattern : string) : bool :=
  match pattern with
  | EmptyString => false
  | String c s => Ascii.eqb c "*" || has_star s
  end.

Fixpoint expand (h : host) (patterns : list string) : list string :=
  match patterns with
  | [] => []
  | pattern :: ps =>
      if has_star pattern then glob h pattern ++ expand h ps
      else if path_exists h pattern then pattern :: expand h ps
      else expand h ps
  end.

Definition find_thermal_zones (h : host) : list string * list string :=
  (expand h cpu_thermal_paths, expand h gpu_thermal_paths).

(** The loop that appends every reading that is not [None]. *)
Fixpoint collect (h : host) (zones : list string) : list Q :=
  match zones with
  | [] => []
  | zone :: zs =>
      match read_temp h zone with
      | Some temp => temp :: collect h zs
      | None => collect h zs
      end
  end.

(** [max] keeps the first of the largest items. *)
Fixpoint max_from (best : Q) (items : list Q) : Q :=
  match items with
  | [] => best
  | x :: xs => max_from (if Py.Qgtb x best then x else best) xs
  end.

(** [max(temps) if temps else None] *)
Definition max_or_none (temps : list Q) : option Q :=
  match temps with
  | [] => None
  | x :: xs => Some (max_from x xs)
  end.

Definition get_cpu_temp (h : host) : option Q :=
  let '(cpu_zones, _) := find_thermal_zones h in
  max_or_none (collect h cpu_zones).

Definition get_gpu_temp (h : host) : option Q :=
  let '(_, gpu_zones) := find_thermal_zones h in
  max_or_none (collect h gpu_zones).

End ThermalMonitor.

(** ** class FanController *)

Module FanController.

(** The control file at [sysfs_path]: whether [open] succeeds on it, and
    the text it holds. *)
Record endpoint : Type := {
  available : bool;
  content : string
}.

(** [sys.exit(1)] when the interface is missing. *)
Definition check_module (interface_exists : bool) : result unit :=
  if interface_exists then Ok tt else Raise (SystemExit 1).

Definition fan_value (cpu_percent gpu_percent : Z) : string :=
  Py.str_of_int cpu_percent ++ "," ++ Py.str_of_int gpu_percent.

Definition set_fan_speed (ep : endpoint) (cpu_percent gpu_percent : Z)
  : endpoint * bool :=
  if available ep
  then ({| available := true; content := fan_value cpu_percent gpu_percent |},
        true)
  else (ep, false).

(** The tuple [int(speeds[0]), int(speeds[1])] is built left to right; a
    [ValueError] of [int] is caught and gives [None], an [IndexError] of the
    subscript is not among the caught exceptions. *)
Definition parse_speeds (text : string) : result (option (Z * Z)) :=
  let speeds := Py.split_comma (Py.strip text) in
  rbind (index speeds 0) (fun s0 =>
  match Py.int_of_str s0 with
  | None => Ok None
  | Some cpu =>
      rbind (index speeds 1) (fun s1 =>
      match Py.int_of_str s1 with
      | None => Ok None
      | Some gpu => Ok (Some (cpu, gpu))
      end)
  end).

Definition get_fan_speed (ep : endpoint) : result (option (Z * Z)) :=
  if available ep then parse_speeds (content ep) else Ok None.

End FanController.

(** ** class FanCurve *)

Module FanCurve.

(** One curve entry, [{"temp": ..., "fan": ...}]. *)
Record point : Type := {
  temp : Q;
  fan : Z
}.

(** The configuration dictionary. The two keys read through [config.get]
    may be absent. *)
Record config : Type := {
  cpu_curve : list point;
  gpu_curve : list point;
  hysteresis : option Z;
  update_interval : option Z
}.

Definition pt (t f : Z) : point := {| temp := inject_Z t; fan := f |}.

Definition default_config : config := {|
  cpu_curve := [pt 35 25; pt 45 40; pt 55 60; pt 65 75; pt 75 90; pt 85 100];
  gpu_curve := [pt 40 30; pt 50 45; pt 60 65; pt 70 80; pt 80 95; pt 90 100];
  hysteresis := Some 2;
  update_interval := Some 1
|}.

(** [self.config.get("hysteresis", 3)] *)
Definition get_hysteresis (cfg : config) : Z :=
  match hysteresis cfg with
  | Some h => h
  | None => 3
  end.

Section Calculate.

Variable cfg : config.
Variable t : Q.                  (* the argument [temp], not [None] *)
Variable curve : list point.
Variable current_fan : Z.

(** The body of the branch [i > 0] once [prev_point] is known. *)
Definition interpolate (prev_point point : point) : Q :=
  let temp_range := (temp point - temp prev_point)%Q in
  let fan_range := fan point - fan prev_point in
  if Py.Qgtb temp_range 0 then
    let temp_offset := (t - temp prev_point)%Q in
    let fan_offset := ((temp_offset / temp_range) * inject_Z fan_range)%Q in
    (inject_Z (fan prev_point) + fan_offset)%Q
  else inject_Z (fan point).

Definition apply_hysteresis (target_fan : Q) : Z :=
  if Py.Qgtb (Qabs (target_fan - inject_Z current_fan))
             (inject_Z (get_hysteresis cfg))
  then Py.trunc target_fan
  else current_fan.

(** [for i, point in enumerate(curve)], entered at index [i] with [rest]
    still to visit. *)
Fixpoint scan (i : nat) (rest : list point) : result Z :=
  match rest with
  | [] => rbind (index_last curve) (fun p => Ok (fan p))
  | point :: rest' =>
      if Qle_bool t (temp point) then
        if Nat.eqb i 0 then Ok (fan point)
        else
          rbind (index curve (i - 1)) (fun prev_point =>
          Ok (apply_hysteresis (interpolate prev_point point)))
      else scan (S i) rest'
  end.

End Calculate.

Definition calculate_fan_speed (cfg : config) (temp : option Q)
    (curve : list point) (current_fan : Z) : result Z :=
  match temp with
  | None => Ok current_fan
  | Some t => scan cfg t curve current_fan 0 curve
  end.

End FanCurve.

(** ** time.sleep *)

Module PyTime.

(** [time.sleep(seconds)] called with an [int]. The delay is first
    converted to a count of nanoseconds in 64 bits, which fails with
    [OverflowError]; a negative delay is then refused with [ValueError];
    otherwise the call returns once the delay has passed. *)
Definition sleep (seconds : Z) : result unit :=
  let ns := seconds * 1000000000 in
  if (ns <? - 2 ^ 63) || (2 ^ 63 - 1 <? ns) then Raise OverflowError
  else if seconds <? 0 then Raise ValueError
  else Ok tt.

End PyTime.

(** ** class FanCurveController *)

Module FanCurveController.

Import FanCurve.

(** What a cycle shows to the outside: the calls of
    [FanController.set_fan_speed] with their outcome, and the lines it
    prints. *)
Inductive event : Type :=
| NoSensors
| SetFanSpeed (cpu_percent gpu_percent : Z) (ok : bool)
| DutyChanged (cpu_temp gpu_temp : Q) (new_cpu_fan new_gpu_fan : Z).

Record controller : Type := {
  endpoint : FanController.endpoint;
  last_cpu_fan : Z;
  last_gpu_fan : Z;
  running : bool;
  trace : list event
}.

(** [__init__]: the constructor of [FanController] checks the interface. *)
Definition init (interface_exists : bool) (text : string) : result controller :=
  rbind (FanController.check_module interface_exists) (fun _ =>
  Ok {| endpoint := {| FanController.available := true;
                       FanController.content := text |};
        last_cpu_fan := 0; last_gpu_fan := 0;
        running := false; trace := [] |}).

(** A computation on the controller; what was done before an exception
    stays done. *)
Definition M (A : Type) : Type := controller -> result A * controller.

Definition ret {A} (a : A) : M A := fun c => (Ok a, c).

Definition raise {A} (e : exn) : M A := fun c => (Raise e, c).

Definition bind {A B} (m : M A) (k : A -> M B) : M B :=
  fun c =>
    match m c with
    | (Ok a, c') => k a c'
    | (Raise e, c') => (Raise e, c')
    end.

Definition lift {A} (r : result A) : M A := fun c => (r, c).

Definition gets {A} (f : controller -> A) : M A := fun c => (Ok (f c), c).

Definition emit (e : event) : M unit :=
  fun c => (Ok tt, {| endpoint := endpoint c;
                      last_cpu_fan := last_cpu_fan c;
                      last_gpu_fan := last_gpu_fan c;
                      running := running c;
                      trace := trace c ++ [e] |}).

Definition set_last (new_cpu_fan new_gpu_fan : Z) : M unit :=
  fun c => (Ok tt, {| endpoint := endpoint c;
                      last_cpu_fan := new_cpu_fan;
                      last_gpu_fan := new_gpu_fan;
                      running := running c;
                      trace := trace c |}).

Definition set_running (b : bool) : M unit :=
  fun c => (Ok tt, {| endpoint := endpoint c;
                      last_cpu_fan := last_cpu_fan c;
                      last_gpu_fan := last_gpu_fan c;
                      running := b;
                      trace := trace c |}).

Notation "x <- m ;; k" := (bind m (fun x => k))
  (at level 61, m at next level, right associativity).
Notation "m ;;; k" := (bind m (fun _ => k))
  (at level 61, right associativity).

(** [self.fan_controller.set_fan_speed(...)] on the controller's endpoint. *)
Definition write_duties (cpu_percent gpu_percent : Z) : M bool :=
  fun c =>
    let '(ep, ok) :=
      FanController.set_fan_speed (endpoint c) cpu_percent gpu_percent in
    (Ok ok, {| endpoint := ep;
               last_cpu_fan := last_cpu_fan c;
               last_gpu_fan := last_gpu_fan c;
               running := running c;
               trace := trace c ++ [SetFanSpeed cpu_percent gpu_percent ok] |}).

(** The status line formats both temperatures with [:.1f], CPU first;
    formatting [None] that way raises [TypeError]. *)
Definition print_change (cpu_temp gpu_temp : option Q)
    (new_cpu_fan new_gpu_fan : Z) : M unit :=
  match cpu_temp, gpu_temp with
  | Some ct, Some gt => emit (DutyChanged ct gt new_cpu_fan new_gpu_fan)
  | _, _ => raise TypeError
  end.

Definition run_once (cfg : config) (h : ThermalMonitor.host) : M bool :=
  let cpu_temp := ThermalMonitor.get_cpu_temp h in
  let gpu_temp := ThermalMonitor.get_gpu_temp h in
  match cpu_temp, gpu_temp with
  | None, None => emit NoSensors ;;; ret false
  | _, _ =>
      last_cpu <- gets last_cpu_fan ;;
      last_gpu <- gets last_gpu_fan ;;
      new_cpu_fan <-
        lift (calculate_fan_speed cfg cpu_temp (cpu_curve cfg) last_cpu) ;;
      new_gpu_fan <-
        lift (calculate_fan_speed cfg gpu_temp (gpu_curve cfg) last_gpu) ;;
      if negb (new_cpu_fan =? last_cpu) || negb (new_gpu_fan =? last_gpu)
      then
        ok <- write_duties new_cpu_fan new_gpu_fan ;;
        if ok then
          set_last new_cpu_fan new_gpu_fan ;;;
          print_change cpu_temp gpu_temp new_cpu_fan new_gpu_fan ;;;
          ret true
        else ret false
      else ret false
  end.

(** What the surroundings do between two cycles: the sensors and the
    health of the control file as the next cycle finds them, or the
    operator's interrupt. *)
Inductive tick : Type :=
| Cycle (h : ThermalMonitor.host) (actuator_available : bool)
| CtrlC.

Inductive daemon_end : Type :=
| Interrupted          (* [KeyboardInterrupt], caught: clean stop *)
| Uncaught (e : exn)   (* an exception left [run_daemon] *)
| Pending.             (* the schedule ran out, the loop goes on *)

Definition with_availability (b : bool) : M unit :=
  fun c => (Ok tt, {| endpoint := {| FanController.available := b;
                                     FanController.content :=
                                       FanController.content (endpoint c) |};
                      last_cpu_fan := last_cpu_fan c;
                      last_gpu_fan := last_gpu_fan c;
                      running := running c;
                      trace := trace c |}).

(** [self.fan_curve.config.get("update_interval", 2)] *)
Definition get_update_interval (cfg : config) : Z :=
  match update_interval cfg with
  | Some n => n
  | None => 2
  end.

(** [while self.running: self.run_once(); time.sleep(update_interval)]
    along a schedule. An exception of the cycle or of [time.sleep] leaves
    the loop; the interrupt arrives while the loop sleeps. *)
Fixpoint loop (cfg : config) (schedule : list tick) (c : controller)
  : daemon_end * controller :=
  match schedule with
  | [] => (Pending, c)
  | CtrlC :: _ => (Interrupted, snd (set_running false c))
  | Cycle h up :: schedule' =>
      match (with_availability up ;;; run_once cfg h) c with
      | (Ok _, c') =>
          match PyTime.sleep (get_update_interval cfg) with
          | Ok _ => loop cfg schedule' c'
          | Raise e => (Uncaught e, c')
          end
      | (Raise e, c') => (Uncaught e, c')
      end
  end.

Definition run_daemon (cfg : config) (schedule : list tick) (c : controller)
  : daemon_end * controller :=
  loop cfg schedule (snd (set_running true c)).

End FanCurveController.

(** ** The specification's reading of the curve and of the band

    These follow the words of the specification (sections 3, 4.2 and 4.3),
    not the source; the theorems below compare the two. *)

Module Spec.

Import FanCurve.

(** 4.3, [commit(target_duty, current_duty, hysteresis_band)]. *)
Definition commit (target_duty current_duty hysteresis_band : Z) : Z :=
  if Z.abs (target_duty - current_duty) >? hysteresis_band
  then target_duty
  else current_duty.

(** 4.2, the target above the lowest breakpoint, before rounding: walk the
    points upwards from [prev]; interpolate on the first one that is not
    below the temperature, use the last duty when there is none. *)
Fixpoint target_above (prev : point) (rest : list point) (t : Q) : Q :=
  match rest with
  | [] => inject_Z (fan prev)
  | p :: rest' =>
      if Qle_bool t (temp p) then
        if Qeq_bool (temp p) (temp prev) then inject_Z (fan p)
        else (inject_Z (fan prev)
              + (t - temp prev) / (temp p - temp prev)
                * inject_Z (fan p - fan prev))%Q
      else target_above p rest' t
  end.

Definition raw_target (p0 : point) (rest : list point) (t : Q) : Q :=
  if Qle_bool t (temp p0) then inject_Z (fan p0) else target_above p0 rest t.

(** 4.2, [target_duty]: rounded toward zero. *)
Definition target_duty (p0 : point) (rest : list point) (t : Q) : Z :=
  Py.trunc (raw_target p0 rest t).

(** 3, the curve invariant: strictly ascending temperatures. *)
Fixpoint ascending_from (prev : point) (rest : list point) : bool :=
  match rest with
  | [] => true
  | p :: rest' => Py.Qgtb (temp p) (temp prev) && ascending_from p rest'
  end.

Definition ascending (curve : list point) : bool :=
  match curve with
  | [] => true
  | p0 :: rest => ascending_from p0 rest
  end.

(** 3, duties are percentages. *)
Definition duty_ok (d : Z) : bool := (0 <=? d) && (d <=? 100).

Definition duties_ok (curve : list point) : bool :=
  forallb (fun p => duty_ok (fan p)) curve.

(** 4.5 step 3, the target of 4.2 passed through the filter of 4.3. *)
Definition committed (hysteresis_band : Z) (curve : list point) (t : Q)
    (current_duty : Z) : option Z :=
  match curve with
  | [] => None
  | p0 :: rest =>
      Some (commit (target_duty p0 rest t) current_duty hysteresis_band)
  end.

(** Some point of the list is at or above the temperature. *)
Definition reaches (t : Q) (points : list point) : bool :=
  existsb (fun p => Qle_bool t (temp p)) points.

End Spec.

(** ** Classes of characters and the value of a numeral *)

Module Chars.

Import Py.

Fixpoint all_chars (P : ascii -> bool) (s : string) : bool :=
  match s with
  | EmptyString => true
  | String c s' => P c && all_chars P s'
  end.

Definition solid (c : ascii) : bool := negb (is_space c).
Definition not_comma (c : ascii) : bool := negb (Ascii.eqb c ",").
Definition is_digit (c : ascii) : bool :=
  match digit_of_ascii c with Some _ => true | None => false end.
Definition numeral (c : ascii) : bool := is_digit c || Ascii.eqb c "-".

(** The value of a decimal numeral read from the left with an
    accumulator, as [int_digits] reads it. *)
Fixpoint uint_value (d : Decimal.uint) (acc : Z) : Z :=
  match d with
  | Decimal.Nil => acc
  | Decimal.D0 d => uint_value d (10 * acc + 0)
  | Decimal.D1 d => uint_value d (10 * acc + 1)
  | Decimal.D2 d => uint_value d (10 * acc + 2)
  | Decimal.D3 d => uint_value d (10 * acc + 3)
  | Decimal.D4 d => uint_value d (10 * acc + 4)
  | Decimal.D5 d => uint_value d (10 * acc + 5)
  | Decimal.D6 d => uint_value d (10 * acc + 6)
  | Decimal.D7 d => uint_value d (10 * acc + 7)
  | Decimal.D8 d => uint_value d (10 * acc + 8)
  | Decimal.D9 d => uint_value d (10 * acc + 9)
  end.

End Chars.

(** ** Concrete configurations and hosts used in the examples *)

Module Fixtures.

Import FanCurve.

(** The curve of the specification's scenarios, with band 5. *)
Definition scenario_curve : list point := [pt 30 20; pt 50 50; pt 70 90].

Definition scenario_config : config := {|
  cpu_curve := scenario_curve;
  gpu_curve := scenario_curve;
  hysteresis := Some 5;
  update_interval := Some 1
|}.

(** Two points whose midpoint duty is not an integer. *)
Definition half_curve : list point := [pt 30 20; pt 50 45].

Definition half_config : config := {|
  cpu_curve := half_curve;
  gpu_curve := half_curve;
  hysteresis := Some 2;
  update_interval := Some 1
|}.

(** The default curves with [update_interval] set to -1. *)
Definition backwards_config : config := {|
  cpu_curve := cpu_curve default_config;
  gpu_curve := gpu_curve default_config;
  hysteresis := Some 2;
  update_interval := Some (-1)
|}.

Definition zone0 : string := "/sys/class/thermal/thermal_zone0/temp".
Definition gpu_hwmon : string := "/sys/class/drm/card0/device/hwmon/hwmon3/temp1_input".

(** A host whose only CPU sensor is [thermal_zone0] and whose GPU sensors,
    if any, are found by the first GPU pattern. *)
Definition host_with (cpu gpu : ThermalMonitor.file) : ThermalMonitor.host := {|
  ThermalMonitor.read := fun path =>
    if String.eqb path zone0 then cpu
    else if String.eqb path gpu_hwmon then gpu
    else ThermalMonitor.FileNotFound;
  ThermalMonitor.path_exists := fun path =>
    match cpu with
    | ThermalMonitor.FileNotFound => false
    | _ => String.eqb path zone0
    end;
  ThermalMonitor.glob := fun pattern =>
    match gpu with
    | ThermalMonitor.FileNotFound => []
    | _ =>
        if String.eqb pattern
             "/sys/class/drm/card0/device/hwmon/hwmon*/temp1_input"
        then [gpu_hwmon] else []
    end
|}.

Definition millidegrees (n : Z) : ThermalMonitor.file :=
  ThermalMonitor.Content (Py.str_of_int n ++ String "010" "").

(** CPU at 50 degrees, no GPU sensor. *)
Definition cpu_only : ThermalMonitor.host :=
  host_with (millidegrees 50000) ThermalMonitor.FileNotFound.

(** CPU at 50 degrees, GPU at 62.5 degrees. *)
Definition both_sensors : ThermalMonitor.host :=
  host_with (millidegrees 50000) (millidegrees 62500).

(** No sensor at all. *)
Definition no_sensors : ThermalMonitor.host :=
  host_with ThermalMonitor.FileNotFound ThermalMonitor.FileNotFound.

(** The controller right after construction. *)
Definition fresh : FanCurveController.controller := {|
  FanCurveController.endpoint :=
    {| FanController.available := true; FanController.content := "0,0" |};
  FanCurveController.last_cpu_fan := 0;
  FanCurveController.last_gpu_fan := 0;
  FanCurveController.running := false;
  FanCurveController.trace := []
|}.

(** The same controller with a control file that refuses to open. *)
Definition stuck : FanCurveController.controller := {|
  FanCurveController.endpoint :=
    {| FanController.available := false; FanController.content := "0,0" |};
  FanCurveController.last_cpu_fan := 0;
  FanCurveController.last_gpu_fan := 0;
  FanCurveController.running := false;
  FanCurveController.trace := []
|}.

End Fixtures.

(** ** Shapes of curves used as hypotheses *)

Module CurveShape.

Import FanCurve.

(** Duties that never fall from one point to the next. *)
Fixpoint rising_from (prev : point) (rest : list point) : bool :=
  match rest with
  | [] => true
  | p :: rest' => (fan prev <=? fan p) && rising_from p rest'
  end.

Definition rising (curve : list point) : bool :=
  match curve with
  | [] => true
  | p0 :: rest => rising_from p0 rest
  end.

End CurveShape.

(** ** class FanCurve: the configuration file and the profiles *)

Module FanCurveFile.

Import FanCurve.

(** What the configuration file is on disk: absent; present but failing
    to open or to parse as JSON; or the JSON text of a configuration. The
    text is not modelled: [json.dump] then [json.load] gives the
    configuration back. *)
Inductive config_file : Type :=
| Missing
| Unreadable
| Holds (cfg : config).

(** The file, and whether [open(config_file, 'w')] succeeds. *)
Record disk : Type := {
  file : config_file;
  writable : bool
}.

Inductive message : Type :=
| Loaded
| LoadError
| Saved
| SaveError
| Applied (profile_name : string)
| Available (names : list string).

(** The [FanCurve] object with the disk it works on and what it printed. *)
Record fan_curve : Type := {
  config : config;
  on_disk : disk;
  printed : list message
}.

Definition print (m : message) (fc : fan_curve) : fan_curve :=
  {| config := config fc; on_disk := on_disk fc;
     printed := printed fc ++ [m] |}.

(** [IOError] is caught and reported. *)
Definition save_config (fc : fan_curve) : fan_curve :=
  if writable (on_disk fc)
  then print Saved {| config := config fc;
                      on_disk := {| file := Holds (config fc);
                                    writable := true |};
                      printed := printed fc |}
  else print SaveError fc.

(** Called by [__init__]. *)
Definition load_config (d : disk) : fan_curve :=
  match file d with
  | Holds cfg => {| config := cfg; on_disk := d; printed := [Loaded] |}
  | Unreadable =>
      {| config := default_config; on_disk := d; printed := [LoadError] |}
  | Missing =>
      save_config {| config := default_config; on_disk := d; printed := [] |}
  end.

Definition gaming : FanCurve.config := {|
  cpu_curve := [pt 35 25; pt 45 40; pt 55 60; pt 65 75; pt 75 90; pt 85 100];
  gpu_curve := [pt 40 30; pt 50 45; pt 60 65; pt 70 80; pt 80 95; pt 90 100];
  hysteresis := Some 2;
  update_interval := Some 1
|}.

Definition quiet : FanCurve.config := {|
  cpu_curve := [pt 40 15; pt 50 25; pt 65 40; pt 75 60; pt 85 80; pt 95 100];
  gpu_curve := [pt 45 20; pt 55 30; pt 70 45; pt 80 65; pt 90 85; pt 100 100];
  hysteresis := Some 4;
  update_interval := Some 3
|}.

Definition balanced : FanCurve.config := {|
  cpu_curve := [pt 35 20; pt 50 35; pt 65 50; pt 75 70; pt 85 85; pt 95 100];
  gpu_curve := [pt 40 25; pt 55 40; pt 70 55; pt 80 75; pt 90 90; pt 100 100];
  hysteresis := Some 3;
  update_interval := Some 2
|}.

(** The dictionary [profiles], in the order of its keys. *)
Definition profiles : list (string * FanCurve.config) :=
  [("gaming", gaming); ("quiet", quiet); ("balanced", balanced)].

Fixpoint lookup (name : string) (d : list (string * FanCurve.config))
  : option FanCurve.config :=
  match d with
  | [] => None
  | (key, value) :: d' => if String.eqb name key then Some value else lookup name d'
  end.

Definition generate_profile (profile_name : string) (fc : fan_curve)
  : fan_curve :=
  match lookup profile_name profiles with
  | Some profile =>
      print (Applied profile_name)
        (save_config {| config := profile; on_disk := on_disk fc;
                        printed := printed fc |})
  | None => print (Available (map fst profiles)) fc
  end.

End FanCurveFile.

(** * The machine layer: Python numbers and sensor reads that raise

    The modules above compute with exact rationals on hosts whose reads
    fail only in the ways [read_temp] catches. The modules of this part
    follow the interpreter more closely: a number is an [int] or a
    binary64 [float], arithmetic rounds and raises as Python's does, and a
    read may fail with an [OSError] that nothing catches. *)

(** ** Python numbers: int and float *)

Module PyNumber.

Definition prec : Z := 53.
Definition emax : Z := 1024.

(** A binary64 value. The values built below are in canonical form. *)
Definition float : Type := spec_float.

Inductive num : Type :=
| Int (z : Z)
| Float (x : float).

(** The extended real a number stands for; NaN stands for none. *)
Inductive real : Type :=
| NegInf
| Fin (q : Q)
| PosInf.

(** [(-1)^s * m * 2^e] *)
Definition value (s : bool) (m : positive) (e : Z) : Q :=
  let n := if s then Zneg m else Zpos m in
  match e with
  | Zneg k => n # (2 ^ k)%positive
  | _ => inject_Z (n * 2 ^ e)
  end.

Definition real_of_float (x : float) : option real :=
  match x with
  | S754_nan => None
  | S754_infinity s => Some (if s then NegInf else PosInf)
  | S754_zero _ => Some (Fin 0)
  | S754_finite s m e => Some (Fin (value s m e))
  end.

Definition real_of (a : num) : option real :=
  match a with
  | Int z => Some (Fin (inject_Z z))
  | Float x => real_of_float x
  end.

Definition real_compare (x y : real) : comparison :=
  match x, y with
  | NegInf, NegInf => Eq
  | NegInf, _ => Lt
  | _, NegInf => Gt
  | PosInf, PosInf => Eq
  | PosInf, _ => Gt
  | _, PosInf => Lt
  | Fin p, Fin q => (p ?= q)%Q
  end.

Definition real_le (x y : real) : Prop := real_compare x y <> Gt.

(** A number that is not NaN. *)
Definition comparable (a : num) : Prop := real_of a <> None.

(** The comparison behind [<=] and [>]: exact between two ints, between
    two floats and between an int and a float; NaN compares with
    nothing. *)
Definition compare (a b : num) : option comparison :=
  match real_of a, real_of b with
  | Some x, Some y => Some (real_compare x y)
  | _, _ => None
  end.

(** [a <= b] *)
Definition leb (a b : num) : bool :=
  match compare a b with
  | Some Lt | Some Eq => true
  | _ => false
  end.

(** [a > b] *)
Definition gtb (a b : num) : bool :=
  match compare a b with
  | Some Gt => true
  | _ => false
  end.

(** [float(z)]: the nearest binary64, ties to even; an int beyond the
    range raises [OverflowError]. *)
Definition of_int (z : Z) : result float :=
  match binary_normalize prec emax z 0 false with
  | S754_infinity _ => Raise OverflowError
  | x => Ok x
  end.

Definition to_float (a : num) : result float :=
  match a with
  | Int z => of_int z
  | Float x => Ok x
  end.

(** A binary operator with at least one float operand: both operands are
    converted, the left one first. *)
Definition float_op (op : float -> float -> float) (a b : num)
  : result num :=
  rbind (to_float a) (fun x =>
  rbind (to_float b) (fun y =>
  Ok (Float (op x y)))).

(** [a + b] *)
Definition add (a b : num) : result num :=
  match a, b with
  | Int x, Int y => Ok (Int (x + y))
  | _, _ => float_op (SFadd prec emax) a b
  end.

(** [a - b] *)
Definition sub (a b : num) : result num :=
  match a, b with
  | Int x, Int y => Ok (Int (x - y))
  | _, _ => float_op (SFsub prec emax) a b
  end.

(** [a * b] *)
Definition mul (a b : num) : result num :=
  match a, b with
  | Int x, Int y => Ok (Int (x * y))
  | _, _ => float_op (SFmul prec emax) a b
  end.

Definition is_zero (x : float) : bool :=
  match x with
  | S754_zero _ => true
  | _ => false
  end.

(** [x / y] for two ints: the quotient rounded once to the nearest
    binary64. *)
Definition int_truediv (x y : Z) : result float :=
  if y =? 0 then Raise ZeroDivisionError
  else
    let negative := xorb (x <? 0) (y <? 0) in
    if x =? 0 then Ok (S754_zero negative)
    else
      let '(q, e, l) :=
        SFdiv_core_binary prec emax (Z.abs x) 0 (Z.abs y) 0 in
      match binary_round_aux prec emax negative q e l with
      | S754_infinity _ => Raise OverflowError
      | r => Ok r
      end.

(** [a / b] *)
Definition truediv (a b : num) : result num :=
  match a, b with
  | Int x, Int y => rbind (int_truediv x y) (fun r => Ok (Float r))
  | _, _ =>
      rbind (to_float a) (fun x =>
      rbind (to_float b) (fun y =>
      if is_zero y then Raise ZeroDivisionError
      else Ok (Float (SFdiv prec emax x y))))
  end.

(** [abs(a)] *)
Definition abs (a : num) : num :=
  match a with
  | Int z => Int (Z.abs z)
  | Float x => Float (SFabs x)
  end.

(** [int(a)]: rounds toward zero; NaN raises [ValueError], an infinity
    [OverflowError]. *)
Definition to_int (a : num) : result Z :=
  match real_of a with
  | None => Raise ValueError
  | Some (Fin q) => Ok (Py.trunc q)
  | Some _ => Raise OverflowError
  end.

(** The truth value of a number: zero is false, NaN is true. *)
Definition is_true (a : num) : bool :=
  match a with
  | Int z => negb (z =? 0)
  | Float x => negb (is_zero x)
  end.

(** Formatting with [:.1f] converts an int to a float first; the digits
    are not modelled. *)
Definition format_1f (a : num) : result unit :=
  rbind (to_float a) (fun _ => Ok tt).

(** The literal [1000.0] *)
Definition thousand : float := binary_normalize prec emax 1000 0 false.

End PyNumber.

(** ** class ThermalMonitor, with reads that raise *)

Module ThermalMonitor64.

Import PyNumber.

(** What [open(path, 'r')] followed by [read()] does: fail with one of the
    two [OSError]s that [read_temp] catches, fail with another one (an I/O
    error of the sensor, a directory in place of the file), fail to
    decode the bytes ([UnicodeDecodeError], a [ValueError]), or give the
    text. *)
Inductive file : Type :=
| FileNotFound
| PermissionDenied
| OtherOSError
| Undecodable
| Content (s : string).

Record host : Type := {
  read : string -> file;
  path_exists : string -> bool;
  glob : string -> list string
}.

(** [temp / 1000.0 if temp > 200 else temp] *)
Definition normalize (temp : Z) : result num :=
  if 200 <? temp then truediv (Int temp) (Float thousand)
  else Ok (Int temp).

(** An exception that is not among the three of the [except] clause
    leaves [read_temp]. *)
Definition read_temp (h : host) (path : string) : result (option num) :=
  match read h path with
  | Content s =>
      match Py.int_of_str (Py.strip s) with
      | Some temp => rbind (normalize temp) (fun t => Ok (Some t))
      | None => Ok None
      end
  | FileNotFound | PermissionDenied | Undecodable => Ok None
  | OtherOSError => Raise OSError
  end.

Fixpoint expand (h : host) (patterns : list string) : list string :=
  match patterns with
  | [] => []
  | pattern :: ps =>
      if ThermalMonitor.has_star pattern then glob h pattern ++ expand h ps
      else if path_exists h pattern then pattern :: expand h ps
      else expand h ps
  end.

Definition find_thermal_zones (h : host) : list string * list string :=
  (expand h ThermalMonitor.cpu_thermal_paths,
   expand h ThermalMonitor.gpu_thermal_paths).

(** The loop that appends every reading that is not [None]; it ends at
    the first read that raises. *)
Fixpoint collect (h : host) (zones : list string) : result (list num) :=
  match zones with
  | [] => Ok []
  | zone :: zs =>
      rbind (read_temp h zone) (fun temp =>
      rbind (collect h zs) (fun temps =>
      Ok match temp with
         | Some t => t :: temps
         | None => temps
         end))
  end.

(** [max] keeps the first of the largest items. *)
Fixpoint max_from (best : num) (items : list num) : num :=
  match items with
  | [] => best
  | x :: xs => max_from (if gtb x best then x else best) xs
  end.

(** [max(temps) if temps else None] *)
Definition max_or_none (temps : list num) : option num :=
  match temps with
  | [] => None
  | x :: xs => Some (max_from x xs)
  end.

Definition sample (h : host) (zones : list string) : result (option num) :=
  rbind (collect h zones) (fun temps => Ok (max_or_none temps)).

Definition get_cpu_temp (h : host) : result (option num) :=
  let '(cpu_zones, _) := find_thermal_zones h in
  sample h cpu_zones.

Definition get_gpu_temp (h : host) : result (option num) :=
  let '(_, gpu_zones) := find_thermal_zones h in
  sample h gpu_zones.

End ThermalMonitor64.

(** ** class FanCurve, with Python numbers *)

Module FanCurve64.

Import PyNumber.

(** One curve entry: the temperature is an int or a float, the duty an
    int. *)
Record point : Type := {
  temp : num;
  fan : Z
}.

Record config : Type := {
  cpu_curve : list point;
  gpu_curve : list point;
  hysteresis : option Z;
  update_interval : option Z
}.

Definition pt (t f : Z) : point := {| temp := Int t; fan := f |}.

(** [self.config.get("hysteresis", 3)] *)
Definition get_hysteresis (cfg : config) : Z :=
  match hysteresis cfg with
  | Some h => h
  | None => 3
  end.

Section Calculate.

Variable cfg : config.
Variable t : num.                (* the argument [temp], not [None] *)
Variable curve : list point.
Variable current_fan : Z.

(** The body of the branch [i > 0] once [prev_point] is known, statement
    by statement. *)
Definition interpolate (prev_point point : point) : result num :=
  rbind (sub (temp point) (temp prev_point)) (fun temp_range =>
  let fan_range := fan point - fan prev_point in
  if gtb temp_range (Int 0) then
    rbind (sub t (temp prev_point)) (fun temp_offset =>
    rbind (truediv temp_offset temp_range) (fun ratio =>
    rbind (mul ratio (Int fan_range)) (fun fan_offset =>
    add (Int (fan prev_point)) fan_offset)))
  else Ok (Int (fan point))).

(** [if abs(target_fan - current_fan) > hysteresis] *)
Definition apply_hysteresis (target_fan : num) : result Z :=
  rbind (sub target_fan (Int current_fan)) (fun change =>
  if gtb (abs change) (Int (get_hysteresis cfg))
  then to_int target_fan
  else Ok current_fan).

(** [for i, point in enumerate(curve)], entered at index [i] with [rest]
    still to visit. *)
Fixpoint scan (i : nat) (rest : list point) : result Z :=
  match rest with
  | [] => rbind (index_last curve) (fun p => Ok (fan p))
  | point :: rest' =>
      if leb t (temp point) then
        if Nat.eqb i 0 then Ok (fan point)
        else
          rbind (index curve (i - 1)) (fun prev_point =>
          rbind (interpolate prev_point point) apply_hysteresis)
      else scan (S i) rest'
  end.

End Calculate.

Definition calculate_fan_speed (cfg : config) (temp : option num)
    (curve : list point) (current_fan : Z) : result Z :=
  match temp with
  | None => Ok current_fan
  | Some t => scan cfg t curve current_fan 0 curve
  end.

(** What the source does once it has the two neighbours [prev_point] and
    [point]. *)
Definition between (cfg : config) (t : num) (current_fan : Z)
    (prev_point point : point) : result Z :=
  rbind (interpolate t prev_point point) (apply_hysteresis cfg current_fan).

(** Going up from [prev], the first two neighbours of which the upper one
    is at or above the temperature. *)
Fixpoint bracket (t : num) (prev : point) (rest : list point)
  : option (point * point) :=
  match rest with
  | [] => None
  | p :: rest' =>
      if leb t (temp p) then Some (prev, p) else bracket t p rest'
  end.

End FanCurve64.

(** ** Hosts and curves of the machine layer used in the examples *)

Module Fixtures64.

Import PyNumber.

(** The reading of a sensor file that holds this number. *)
Definition reading (raw : Z) : num :=
  match ThermalMonitor64.normalize raw with
  | Ok t => t
  | Raise _ => Int raw
  end.

(** Two points, 40 -> 0 and 90 -> 100, band 2. *)
Definition steep_curve : list FanCurve64.point :=
  [FanCurve64.pt 40 0; FanCurve64.pt 90 100].

Definition steep_config : FanCurve64.config := {|
  FanCurve64.cpu_curve := steep_curve;
  FanCurve64.gpu_curve := steep_curve;
  FanCurve64.hysteresis := Some 2;
  FanCurve64.update_interval := Some 1
|}.

(** The curve and the band of [Fixtures.half_config]. *)
Definition half_curve : list FanCurve64.point :=
  [FanCurve64.pt 30 20; FanCurve64.pt 50 45].

Definition half_config : FanCurve64.config := {|
  FanCurve64.cpu_curve := half_curve;
  FanCurve64.gpu_curve := half_curve;
  FanCurve64.hysteresis := Some 2;
  FanCurve64.update_interval := Some 1
|}.

(** Two points whose temperatures are integers that binary64 does not
    hold: 2^53 + 1 and 2^53 + 2. *)
Definition coarse_curve : list FanCurve64.point :=
  [FanCurve64.pt (2 ^ 53 + 1) 0; FanCurve64.pt (2 ^ 53 + 2) 100].

Definition default_cpu_curve : list FanCurve64.point :=
  [FanCurve64.pt 35 25; FanCurve64.pt 45 40; FanCurve64.pt 55 60;
   FanCurve64.pt 65 75; FanCurve64.pt 75 90; FanCurve64.pt 85 100].

Definition zone1 : string := "/sys/class/thermal/thermal_zone1/temp".

(** Two CPU zones exist: the read of [thermal_zone0] fails as [zone0]
    says, [thermal_zone1] holds 45000. There is no GPU sensor. *)
Definition two_zones (zone0 : ThermalMonitor64.file) : ThermalMonitor64.host := {|
  ThermalMonitor64.read := fun path =>
    if String.eqb path Fixtures.zone0 then zone0
    else if String.eqb path zone1
         then ThermalMonitor64.Content ("45000" ++ String "010" "")
         else ThermalMonitor64.FileNotFound;
  ThermalMonitor64.path_exists := fun path =>
    String.eqb path Fixtures.zone0 || String.eqb path zone1;
  ThermalMonitor64.glob := fun _ => []
|}.

(** [thermal_zone0] fails with an I/O error when read. *)
Definition faulty : ThermalMonitor64.host :=
  two_zones ThermalMonitor64.OtherOSError.

(** [thermal_zone0] may not be read. *)
Definition locked : ThermalMonitor64.host :=
  two_zones ThermalMonitor64.PermissionDenied.

End Fixtures64.

(** ** FanCurveController.show_status *)

Module Status.

Import PyNumber.

(** The lines of the status report, by what they show; [None] is the
    text N/A. The digits of a temperature are not modelled. The lines
    printed before an exception are not kept. *)
Inductive line : Type :=
| Header
| CpuTemperature (shown : option num)
| GpuTemperature (shown : option num)
| FanSpeeds (shown : option (Z * Z)).

(** [f"...{temp:.1f}..." if temp else "... N/A"]: [None] is false, and so
    is a zero; a reading that is true is formatted. *)
Definition shown (temp : option num) : result (option num) :=
  match temp with
  | Some t =>
      if is_true t then rbind (format_1f t) (fun _ => Ok (Some t))
      else Ok None
  | None => Ok None
  end.

Definition show_status (h : ThermalMonitor64.host)
    (ep : FanController.endpoint) : result (list line) :=
  rbind (ThermalMonitor64.get_cpu_temp h) (fun cpu_temp =>
  rbind (ThermalMonitor64.get_gpu_temp h) (fun gpu_temp =>
  rbind (FanController.get_fan_speed ep) (fun fan_speeds =>
  rbind (shown cpu_temp) (fun cpu_line =>
  rbind (shown gpu_temp) (fun gpu_line =>
  Ok [Header;
      CpuTemperature cpu_line;
      GpuTemperature gpu_line;
      FanSpeeds fan_speeds]))))).

End Status.

(** * Properties *)

(** ** Text: stripping, splitting, reading and writing integers *)

Example int_of_str_plain : Py.int_of_str "41" = Some 41.
Proof. reflexivity. Qed.

Example int_of_str_newline : Py.int_of_str ("45000" ++ String "010" "") = Some 45000.
Proof. reflexivity. Qed.

Example int_of_str_signed : Py.int_of_str " -7 " = Some (-7).
Proof. reflexivity. Qed.

Example int_of_str_underscore : Py.int_of_str "1_000" = Some 1000.
Proof. reflexivity. Qed.

Example int_of_str_bad :
  map Py.int_of_str [""; "abc"; "1__0"; "_1"; "1_"; "+-1"; "- 1"; "4 1"]
  = [None; None; None; None; None; None; None; None].
Proof. reflexivity. Qed.

(** The file separator is stripped by [str.strip] and refused by [int]. *)
Example int_of_str_separator :
  Py.int_of_str (String "028" "41") = None
  /\ Py.int_of_str ("41" ++ String "028" "") = None
  /\ Py.int_of_str (Py.strip ("41" ++ String "028" "")) = Some 41
  /\ FanController.parse_speeds ("41" ++ String "028" ",67") = Ok None.
Proof. repeat split. Qed.

Example split_comma_ex :
  map Py.split_comma ["41,67"; "41"; ""; "1,,2"]
  = [["41"; "67"]; ["41"]; [""]; ["1"; ""; "2"]].
Proof. reflexivity. Qed.

Example str_of_int_ex :
  map Py.str_of_int [0; 41; -5; 100] = ["0"; "41"; "-5"; "100"].
Proof. reflexivity. Qed.

Example trunc_ex :
  map Py.trunc [(65 # 2)%Q; (-65 # 2)%Q; 7%Q; (0 # 1)%Q] = [32; -32; 7; 0].
Proof. reflexivity. Qed.

Module PyFacts.

Import Py Chars.

Lemma all_chars_app P s1 s2 :
  all_chars P (s1 ++ s2) = all_chars P s1 && all_chars P s2.
Proof.
  induction s1 as [|c s1 IH]; simpl; [reflexivity|].
  now rewrite IH, andb_assoc.
Qed.

Lemma all_chars_weaken (P R : ascii -> bool) s :
  (forall c, P c = true -> R c = true) ->
  all_chars P s = true -> all_chars R s = true.
Proof.
  intros HPR. induction s as [|c s IH]; simpl; [reflexivity|].
  intros [Hc Hs]%andb_prop. rewrite (HPR _ Hc). now apply IH.
Qed.

Lemma digit_solid c : is_digit c = true -> solid c = true.
Proof.
  destruct c as [[|] [|] [|] [|] [|] [|] [|] [|]]; simpl; intros H;
    try reflexivity; discriminate H.
Qed.

Lemma digit_not_comma c : is_digit c = true -> not_comma c = true.
Proof.
  destruct c as [[|] [|] [|] [|] [|] [|] [|] [|]]; simpl; intros H;
    try reflexivity; discriminate H.
Qed.

Lemma lstrip_solid s : all_chars solid s = true -> lstrip s = s.
Proof.
  destruct s as [|c s]; simpl; [reflexivity|].
  unfold solid. intros [Hc _]%andb_prop.
  apply negb_true_iff in Hc. now rewrite Hc.
Qed.

Lemma rstrip_solid s : all_chars solid s = true -> rstrip s = s.
Proof.
  induction s as [|c s IH]; simpl; [reflexivity|].
  intros [Hc Hs]%andb_prop. rewrite (IH Hs).
  destruct s; [|reflexivity].
  unfold solid in Hc. apply negb_true_iff in Hc. now rewrite Hc.
Qed.

Lemma strip_solid s : all_chars solid s = true -> strip s = s.
Proof.
  intros H. unfold strip. rewrite (lstrip_solid _ H). now apply rstrip_solid.
Qed.

Lemma solid_not_blank c : solid c = true -> is_blank c = false.
Proof.
  destruct c as [[|] [|] [|] [|] [|] [|] [|] [|]]; simpl; intros H;
    try reflexivity; discriminate H.
Qed.

(** [int] finds nothing to skip around a text without whitespace. *)
Lemma blanks_solid s :
  all_chars solid s = true -> drop_final_blanks (skip_blanks s) = s.
Proof.
  intros H.
  assert (Hl : skip_blanks s = s).
  { destruct s as [|c s]; simpl; [reflexivity|].
    simpl in H. apply andb_prop in H. destruct H as [Hc _].
    now rewrite (solid_not_blank _ Hc). }
  rewrite Hl. clear Hl.
  induction s as [|c s IH]; simpl; [reflexivity|].
  simpl in H. apply andb_prop in H. destruct H as [Hc Hs].
  rewrite (IH Hs). destruct s; [|reflexivity].
  now rewrite (solid_not_blank _ Hc).
Qed.

Lemma split_comma_field s :
  all_chars not_comma s = true -> split_comma s = [s].
Proof.
  induction s as [|c s IH]; simpl; [reflexivity|].
  unfold not_comma at 1. intros [Hc Hs]%andb_prop.
  apply negb_true_iff in Hc. now rewrite Hc, (IH Hs).
Qed.

Lemma split_comma_app s1 s2 :
  all_chars not_comma s1 = true ->
  split_comma (s1 ++ String "," s2) = s1 :: split_comma s2.
Proof.
  induction s1 as [|c s1 IH]; simpl; [reflexivity|].
  unfold not_comma at 1. intros [Hc Hs]%andb_prop.
  apply negb_true_iff in Hc. now rewrite Hc, (IH Hs).
Qed.

Lemma digits_of_uint d : all_chars is_digit (NilEmpty.string_of_uint d) = true.
Proof. induction d; simpl; auto. Qed.

Lemma int_digits_of_uint d : forall acc,
  int_digits (NilEmpty.string_of_uint d) acc true = Some (uint_value d acc).
Proof. induction d; intros acc; simpl; auto. Qed.

Lemma int_digits_of_uint_start d acc :
  d <> Decimal.Nil ->
  int_digits (NilEmpty.string_of_uint d) acc false = Some (uint_value d acc).
Proof.
  destruct d; intros Hd; try congruence; simpl; apply int_digits_of_uint.
Qed.

Lemma uint_value_acc d : forall acc : positive,
  Z.pos (Pos.of_uint_acc d acc) = uint_value d (Z.pos acc).
Proof.
  induction d; intros acc; cbn [Pos.of_uint_acc uint_value];
    try reflexivity; rewrite IHd; f_equal; lia.
Qed.

Lemma uint_value_of_uint d : uint_value d 0 = Z.of_N (Pos.of_uint d).
Proof.
  induction d; simpl; try reflexivity; try assumption;
    now rewrite uint_value_acc.
Qed.

Lemma uint_value_to_uint p : uint_value (Pos.to_uint p) 0 = Z.pos p.
Proof.
  now rewrite uint_value_of_uint, DecimalPos.Unsigned.of_to.
Qed.

Lemma int_of_str_uint d :
  d <> Decimal.Nil ->
  int_of_str (NilEmpty.string_of_uint d) = Some (uint_value d 0).
Proof.
  intros Hd. unfold int_of_str.
  rewrite blanks_solid
    by (apply (all_chars_weaken is_digit); [apply digit_solid | apply digits_of_uint]).
  destruct d; try congruence; cbn -[Z.mul Z.add]; apply int_digits_of_uint.
Qed.

Lemma int_of_str_minus_uint d :
  d <> Decimal.Nil ->
  int_of_str (String "-" (NilEmpty.string_of_uint d)) = Some (- uint_value d 0).
Proof.
  intros Hd. unfold int_of_str.
  rewrite blanks_solid.
  - cbn -[int_digits]. now rewrite int_digits_of_uint_start.
  - cbn. apply (all_chars_weaken is_digit); [apply digit_solid | apply digits_of_uint].
Qed.

Lemma nilzero_nonnil d :
  d <> Decimal.Nil -> NilZero.string_of_uint d = NilEmpty.string_of_uint d.
Proof. destruct d; intros Hd; [now contradiction Hd | reflexivity ..]. Qed.

(** [int(str(n)) == n] *)
Lemma int_of_str_of_int z : int_of_str (str_of_int z) = Some z.
Proof.
  unfold str_of_int. destruct z as [|p|p]; cbn [Z.to_int NilZero.string_of_int].
  - reflexivity.
  - rewrite nilzero_nonnil by apply DecimalPos.Unsigned.to_uint_nonnil.
    rewrite int_of_str_uint by apply DecimalPos.Unsigned.to_uint_nonnil.
    now rewrite uint_value_to_uint.
  - rewrite nilzero_nonnil by apply DecimalPos.Unsigned.to_uint_nonnil.
    rewrite int_of_str_minus_uint by apply DecimalPos.Unsigned.to_uint_nonnil.
    now rewrite uint_value_to_uint.
Qed.

Lemma numeral_solid c : numeral c = true -> solid c = true.
Proof.
  destruct c as [[|] [|] [|] [|] [|] [|] [|] [|]]; simpl; intros H;
    try reflexivity; discriminate H.
Qed.

Lemma numeral_not_comma c : numeral c = true -> not_comma c = true.
Proof.
  destruct c as [[|] [|] [|] [|] [|] [|] [|] [|]]; simpl; intros H;
    try reflexivity; discriminate H.
Qed.

(** [str(n)] is made of digits and at most a leading minus sign. *)
Lemma str_of_int_numeral z : all_chars numeral (str_of_int z) = true.
Proof.
  assert (Hd : forall d, all_chars numeral (NilEmpty.string_of_uint d) = true).
  { intros d. apply (all_chars_weaken is_digit); [|apply digits_of_uint].
    intros c Hc. unfold numeral. now rewrite Hc. }
  unfold str_of_int. destruct z as [|p|p]; cbn [Z.to_int NilZero.string_of_int].
  - reflexivity.
  - rewrite nilzero_nonnil by apply DecimalPos.Unsigned.to_uint_nonnil. apply Hd.
  - rewrite nilzero_nonnil by apply DecimalPos.Unsigned.to_uint_nonnil.
    cbn. apply Hd.
Qed.

End PyFacts.

(** ** ThermalMonitor: what a domain reading is *)

Module ThermalFacts.

Import ThermalMonitor.

Lemma Qgtb_true a b : Py.Qgtb a b = true <-> (b < a)%Q.
Proof.
  unfold Py.Qgtb. rewrite negb_true_iff, <- not_true_iff_false, Qle_bool_iff.
  split; [apply Qnot_le_lt | apply Qlt_not_le].
Qed.

Lemma Qgtb_false a b : Py.Qgtb a b = false <-> (a <= b)%Q.
Proof.
  unfold Py.Qgtb. now rewrite negb_false_iff, Qle_bool_iff.
Qed.

Lemma collect_In h zones v :
  In v (collect h zones) <->
  exists zone, In zone zones /\ read_temp h zone = Some v.
Proof.
  induction zones as [|z zs IH]; simpl.
  - split; [contradiction | now intros [? [[] _]]].
  - destruct (read_temp h z) as [w|] eqn:Hz; simpl; rewrite IH; split.
    + intros [<- | [z' [Hin Hr]]]; eauto.
    + intros [z' [[<- | Hin] Hr]]; [left; congruence | right; eauto].
    + intros [z' [Hin Hr]]; eauto.
    + intros [z' [[<- | Hin] Hr]]; [congruence | eauto].
Qed.

Lemma collect_nil h zones :
  collect h zones = [] <->
  forall zone, In zone zones -> read_temp h zone = None.
Proof.
  split.
  - intros Hnil zone Hin. destruct (read_temp h zone) as [v|] eqn:Hr; auto.
    assert (Hv : In v (collect h zones)) by (apply collect_In; eauto).
    rewrite Hnil in Hv. contradiction.
  - intros Hall. destruct (collect h zones) as [|v vs] eqn:Hc; auto.
    assert (Hv : In v (collect h zones)) by (rewrite Hc; now left).
    apply collect_In in Hv. destruct Hv as [z [Hin Hr]].
    rewrite (Hall z Hin) in Hr. discriminate.
Qed.

Lemma max_from_In items : forall best,
  In (max_from best items) (best :: items).
Proof.
  induction items as [|x xs IH]; intros best; simpl; [now left|].
  destruct (IH (if Py.Qgtb x best then x else best)) as [H | H].
  - destruct (Py.Qgtb x best); rewrite <- H; auto.
  - auto.
Qed.

Lemma max_from_ge_best items : forall best, (best <= max_from best items)%Q.
Proof.
  induction items as [|x xs IH]; intros best; simpl; [apply Qle_refl|].
  eapply Qle_trans; [|apply IH].
  destruct (Py.Qgtb x best) eqn:Hx; [|apply Qle_refl].
  apply Qgtb_true in Hx. now apply Qlt_le_weak.
Qed.

Lemma max_from_upper items : forall best v,
  In v (best :: items) -> (v <= max_from best items)%Q.
Proof.
  induction items as [|x xs IH]; intros best v Hin; simpl.
  - destruct Hin as [<- | []]. apply Qle_refl.
  - destruct Hin as [<- | [<- | Hin]].
    + eapply Qle_trans; [|apply max_from_ge_best].
      destruct (Py.Qgtb x best) eqn:Hx; [|apply Qle_refl].
      apply Qgtb_true in Hx. now apply Qlt_le_weak.
    + eapply Qle_trans; [|apply max_from_ge_best].
      destruct (Py.Qgtb x best) eqn:Hx; [apply Qle_refl|].
      now apply Qgtb_false in Hx.
    + apply IH. now right.
Qed.

Lemma max_or_none_spec temps :
  (max_or_none temps = None <-> temps = []) /\
  (forall m, max_or_none temps = Some m ->
     In m temps /\ forall v, In v temps -> (v <= m)%Q).
Proof.
  destruct temps as [|x xs]; simpl; split.
  - tauto.
  - discriminate.
  - split; discriminate.
  - intros m [= <-]. split; [apply max_from_In | apply max_from_upper].
Qed.

Lemma read_temp_spec h path v :
  read_temp h path = Some v <->
  exists s raw, read h path = Content s
    /\ Py.int_of_str (Py.strip s) = Some raw
    /\ v = normalize raw.
Proof.
  unfold read_temp. split.
  - destruct (read h path) as [| |s]; try discriminate.
    destruct (Py.int_of_str (Py.strip s)) as [raw|] eqn:Hp; try discriminate.
    intros [= <-]. eauto.
  - intros [s [raw [-> [-> ->]]]]. reflexivity.
Qed.

End ThermalFacts.

(** ** Python numbers: rounding and order *)

Module NumberFacts.

Import PyNumber.

(** *** Rounding never yields NaN *)

Lemma iter_pos_keeps {A} (P : A -> Prop) (f : A -> A) :
  (forall x, P x -> P (f x)) -> forall n x, P x -> P (iter_pos f n x).
Proof.
  intros Hf. induction n as [n IH|n IH|]; intros x Hx; cbn [iter_pos]; auto.
Qed.

Lemma shr_1_nonneg mrs : 0 <= shr_m mrs -> 0 <= shr_m (shr_1 mrs).
Proof.
  destruct mrs as [m r s]. cbn [shr_m]. intros Hm.
  destruct m as [|[p|p|]|p]; cbn; lia.
Qed.

Lemma shr_fexp_nonneg m e l :
  0 <= m -> 0 <= shr_m (fst (shr_fexp prec emax m e l)).
Proof.
  intros Hm. unfold shr_fexp, shr.
  assert (H0 : 0 <= shr_m (shr_record_of_loc m l)).
  { destruct l as [|[| |]]; exact Hm. }
  destruct (fexp prec emax (Zdigits2 m + e) - e) as [|p|p]; cbn [fst]; auto.
  apply (iter_pos_keeps (fun mrs => 0 <= shr_m mrs)); auto using shr_1_nonneg.
Qed.

Lemma round_nearest_even_nonneg m l : 0 <= m -> 0 <= round_nearest_even m l.
Proof.
  intros Hm. unfold round_nearest_even.
  destruct l as [|[| |]]; try destruct (Z.even m); lia.
Qed.

Lemma binary_round_aux_not_nan s m e l :
  0 <= m -> binary_round_aux prec emax s m e l <> S754_nan.
Proof.
  intros Hm. unfold binary_round_aux.
  pose proof (shr_fexp_nonneg m e l Hm) as H1.
  destruct (shr_fexp prec emax m e l) as [mrs' e']. cbn [fst] in H1.
  pose proof (shr_fexp_nonneg _ e' loc_Exact
                (round_nearest_even_nonneg _ (loc_of_shr_record mrs') H1)) as H2.
  destruct (shr_fexp prec emax (round_nearest_even (shr_m mrs')
                                  (loc_of_shr_record mrs')) e' loc_Exact)
    as [mrs'' e'']. cbn [fst] in H2.
  destruct (shr_m mrs'') as [|p|p]; [discriminate| |lia].
  destruct (e'' <=? emax - prec); discriminate.
Qed.

Lemma of_int_not_nan z x : of_int z = Ok x -> x <> S754_nan.
Proof.
  unfold of_int, binary_normalize, binary_round. intros H Hx. subst x.
  destruct z as [|p|p].
  - discriminate H.
  - destruct (shl_align p 0 _) as [mz ez].
    pose proof (binary_round_aux_not_nan false (Zpos mz) ez loc_Exact) as Hn.
    destruct (binary_round_aux prec emax false (Z.pos mz) ez loc_Exact);
      try discriminate H. apply Hn; [lia | reflexivity].
  - destruct (shl_align p 0 _) as [mz ez].
    pose proof (binary_round_aux_not_nan true (Zpos mz) ez loc_Exact) as Hn.
    destruct (binary_round_aux prec emax true (Z.pos mz) ez loc_Exact);
      try discriminate H. apply Hn; [lia | reflexivity].
Qed.

Lemma div_core_nonneg m1 e1 m2 e2 :
  0 <= fst (fst (SFdiv_core_binary prec emax (Zpos m1) e1 (Zpos m2) e2)).
Proof.
  unfold SFdiv_core_binary.
  set (s := _ - _ - Z.min _ _).
  set (m' := match s with Zpos _ => Z.shiftl (Zpos m1) s | Z0 => Zpos m1 | Zneg _ => 0 end).
  assert (Hm' : 0 <= m').
  { subst m'. destruct s; try lia. apply Z.shiftl_nonneg. lia. }
  pose proof (Z.div_pos m' (Zpos m2) Hm' eq_refl) as Hq.
  unfold Z.div in Hq. destruct (Z.div_eucl m' (Zpos m2)) as [q r].
  exact Hq.
Qed.

Lemma SFdiv_not_nan x y :
  x <> S754_nan -> (exists s m e, y = S754_finite s m e) ->
  (forall s, x <> S754_infinity s) ->
  SFdiv prec emax x y <> S754_nan.
Proof.
  intros Hx [sy [my [ey ->]]] Hinf.
  destruct x as [sx|sx| |sx mx ex]; cbn [SFdiv]; try discriminate.
  - now elim Hx.
  - pose proof (div_core_nonneg mx ex my ey) as Hq.
    destruct (SFdiv_core_binary prec emax (Zpos mx) ex (Zpos my) ey)
      as [[mz ez] lz]. cbn [fst] in Hq.
    now apply binary_round_aux_not_nan.
Qed.

End NumberFacts.

Module OrderFacts.

Import PyNumber NumberFacts.

Lemma real_le_refl x : real_le x x.
Proof.
  destruct x as [|q|]; unfold real_le; cbn; try discriminate.
  apply Qle_alt, Qle_refl.
Qed.

Lemma real_le_trans x y z : real_le x y -> real_le y z -> real_le x z.
Proof.
  destruct x as [|p|], y as [|q|], z as [|r|]; unfold real_le; cbn;
    try discriminate; try congruence.
  rewrite <- !Qle_alt. apply Qle_trans.
Qed.

Lemma real_gt_le x y : real_compare x y = Gt -> real_le y x.
Proof.
  destruct x as [|p|], y as [|q|]; unfold real_le; cbn; try discriminate.
  rewrite <- Qgt_alt, <- Qle_alt. apply Qlt_le_weak.
Qed.

Lemma leb_spec a b :
  leb a b = true <->
  exists x y, real_of a = Some x /\ real_of b = Some y /\ real_le x y.
Proof.
  unfold leb, compare, real_le.
  destruct (real_of a) as [x|], (real_of b) as [y|]; split;
    try discriminate; try (intros [x' [y' [H _]]]; discriminate H);
    try (intros [x' [y' [_ [H _]]]]; discriminate H).
  - intros H. exists x, y. repeat split.
    destruct (real_compare x y); [discriminate ..|discriminate H].
  - intros [x' [y' [[= <-] [[= <-] H]]]].
    destruct (real_compare x y); [reflexivity | reflexivity | now elim H].
Qed.

Lemma leb_refl a : comparable a -> leb a a = true.
Proof.
  unfold comparable. intros Ha. apply leb_spec.
  destruct (real_of a) as [x|]; [|now elim Ha].
  exists x, x. auto using real_le_refl.
Qed.

Lemma leb_trans a b c : leb a b = true -> leb b c = true -> leb a c = true.
Proof.
  rewrite !leb_spec.
  intros [x [y [Ha [Hb Hxy]]]] [y' [z [Hb' [Hc Hyz]]]].
  rewrite Hb in Hb'. injection Hb' as <-.
  exists x, z. eauto using real_le_trans.
Qed.

Lemma gtb_leb a b : gtb a b = true -> leb b a = true.
Proof.
  unfold gtb, compare. intros H. apply leb_spec.
  destruct (real_of a) as [x|], (real_of b) as [y|]; try discriminate H.
  exists y, x. repeat split. apply real_gt_le.
  destruct (real_compare x y); [discriminate H ..|reflexivity].
Qed.

Lemma not_gtb_leb a b :
  comparable a -> comparable b -> gtb a b = false -> leb a b = true.
Proof.
  unfold comparable, gtb, leb, compare. intros Ha Hb.
  destruct (real_of a) as [x|], (real_of b) as [y|];
    [|now elim Hb|now elim Ha|now elim Ha].
  destruct (real_compare x y); [reflexivity | reflexivity | discriminate].
Qed.

Lemma leb_not_gtb a b : leb a b = true -> gtb a b = false.
Proof.
  unfold gtb, leb, compare.
  destruct (real_of a) as [x|], (real_of b) as [y|]; try reflexivity.
  destruct (real_compare x y); [reflexivity | reflexivity | discriminate].
Qed.

End OrderFacts.

(** ** ThermalMonitor with reads that raise *)

Module MachineSensorFacts.

Import PyNumber ThermalMonitor64 NumberFacts OrderFacts.

Lemma thousand_finite : thousand = S754_finite false 8796093022208000 (-43).
Proof. vm_compute. reflexivity. Qed.

Lemma of_int_raises z e : of_int z = Raise e -> e = OverflowError.
Proof.
  unfold of_int. destruct (binary_normalize prec emax z 0 false);
    intros H; try discriminate H. now injection H as <-.
Qed.

Lemma of_int_not_infinity z x s : of_int z = Ok x -> x <> S754_infinity s.
Proof.
  unfold of_int. destruct (binary_normalize prec emax z 0 false);
    intros H; try discriminate H; injection H as <-; discriminate.
Qed.

(** [temp / 1000.0] *)
Lemma millidegrees_div raw :
  truediv (Int raw) (Float thousand)
  = rbind (of_int raw) (fun x => Ok (Float (SFdiv prec emax x thousand))).
Proof.
  unfold truediv, to_float. destruct (of_int raw) as [x|e]; [|reflexivity].
  cbn [rbind]. now rewrite thousand_finite.
Qed.

Lemma normalize_spec raw :
  normalize raw
  = if 200 <? raw
    then rbind (of_int raw) (fun x => Ok (Float (SFdiv prec emax x thousand)))
    else Ok (Int raw).
Proof. unfold normalize. now rewrite millidegrees_div. Qed.

Lemma normalize_comparable raw t : normalize raw = Ok t -> comparable t.
Proof.
  rewrite normalize_spec. destruct (200 <? raw).
  - destruct (of_int raw) as [x|e] eqn:Hx; [|discriminate].
    cbn [rbind]. intros [= <-]. unfold comparable. cbn [real_of].
    assert (Hn : SFdiv prec emax x thousand <> S754_nan).
    { apply SFdiv_not_nan.
      - eapply of_int_not_nan; eauto.
      - rewrite thousand_finite. eauto.
      - intros s. eapply of_int_not_infinity; eauto. }
    destruct (SFdiv prec emax x thousand); try discriminate. now elim Hn.
  - intros [= <-]. discriminate.
Qed.

Lemma normalize_raises raw e :
  normalize raw = Raise e <-> 200 < raw /\ of_int raw = Raise e.
Proof.
  rewrite normalize_spec. destruct (200 <? raw) eqn:H200.
  - apply Z.ltb_lt in H200. destruct (of_int raw) as [x|e0]; cbn [rbind].
    + split; [discriminate | intros [_ H]; discriminate H].
    + split; [intros [= <-]; auto | intros [_ [= <-]]; reflexivity].
  - split; [discriminate|]. apply Z.ltb_ge in H200. lia.
Qed.

Lemma read_temp_reading h path v :
  read_temp h path = Ok (Some v) <->
  exists s raw, read h path = Content s
    /\ Py.int_of_str (Py.strip s) = Some raw
    /\ normalize raw = Ok v.
Proof.
  unfold read_temp. destruct (read h path) as [| | | |s]; split;
    try discriminate; try (intros [s' [raw [H _]]]; discriminate H).
  - destruct (Py.int_of_str (Py.strip s)) as [raw|] eqn:Hi; [|discriminate].
    destruct (normalize raw) as [t|e] eqn:Hn; [|discriminate].
    cbn [rbind]. intros [= <-]. exists s, raw. auto.
  - intros [s' [raw [[= <-] [-> ->]]]]. reflexivity.
Qed.

Lemma read_temp_raises h path e :
  read_temp h path = Raise e <->
  (read h path = OtherOSError /\ e = OSError)
  \/ (exists s raw, read h path = Content s
        /\ Py.int_of_str (Py.strip s) = Some raw
        /\ 200 < raw /\ of_int raw = Raise e /\ e = OverflowError).
Proof.
  unfold read_temp. destruct (read h path) as [| | | |s]; split;
    try discriminate;
    try (intros [[H _] | [s' [raw [H _]]]]; discriminate H).
  - intros [= <-]. now left.
  - intros [[_ ->] | [s' [raw [H _]]]]; [reflexivity | discriminate H].
  - destruct (Py.int_of_str (Py.strip s)) as [raw|] eqn:Hi; [|discriminate].
    destruct (normalize raw) as [t|e0] eqn:Hn; [discriminate|].
    cbn [rbind]. intros [= <-]. apply normalize_raises in Hn.
    destruct Hn as [H200 Hov]. right. exists s, raw.
    repeat split; auto. eapply of_int_raises; eauto.
  - intros [[H _] | [s' [raw [[= <-] [-> [H200 [Hov _]]]]]]]; [discriminate H|].
    now rewrite (proj2 (normalize_raises raw e) (conj H200 Hov)).
Qed.

Lemma read_temp_comparable h path v :
  read_temp h path = Ok (Some v) -> comparable v.
Proof.
  intros H. apply read_temp_reading in H.
  destruct H as [s [raw [_ [_ Hn]]]]. eapply normalize_comparable; eauto.
Qed.

(** The loop over the zones stops at the first read that raises. *)
Lemma collect_escape h zone post e : forall pre,
  (forall z, In z pre -> exists r, read_temp h z = Ok r) ->
  read_temp h zone = Raise e ->
  collect h (pre ++ zone :: post) = Raise e.
Proof.
  induction pre as [|z pre IH]; intros Hpre Hzone; cbn [app collect].
  - now rewrite Hzone.
  - destruct (Hpre z (or_introl eq_refl)) as [r Hr]. rewrite Hr. cbn [rbind].
    rewrite IH; auto. intros z' Hin. apply Hpre. now right.
Qed.

Lemma collect_raises h e : forall zones,
  collect h zones = Raise e ->
  exists pre zone post,
    zones = (pre ++ zone :: post)%list
    /\ (forall z, In z pre -> exists r, read_temp h z = Ok r)
    /\ read_temp h zone = Raise e.
Proof.
  induction zones as [|z zones IH]; cbn [collect]; [discriminate|].
  destruct (read_temp h z) as [r|e0] eqn:Hz; cbn [rbind].
  - destruct (collect h zones) as [temps|e1] eqn:Hc; [discriminate|].
    cbn [rbind]. intros [= <-].
    destruct (IH eq_refl) as [pre [zone [post [-> [Hpre Hzone]]]]].
    exists (z :: pre), zone, post. repeat split; auto.
    intros z' [<- | Hin]; eauto.
  - intros [= <-]. exists [], z, zones. repeat split; auto.
    intros z' [].
Qed.

(** Without such a read, the readings are collected in order. *)
Lemma collect_readings h : forall zones,
  (forall z, In z zones -> exists r, read_temp h z = Ok r) ->
  exists temps,
    collect h zones = Ok temps
    /\ forall v, In v temps <->
                 exists z, In z zones /\ read_temp h z = Ok (Some v).
Proof.
  induction zones as [|z zones IH]; intros Hall; cbn [collect].
  - exists []. split; [reflexivity|]. intros v. split; [intros [] |].
    intros [z [[] _]].
  - destruct (Hall z (or_introl eq_refl)) as [r Hr]. rewrite Hr. cbn [rbind].
    destruct IH as [temps [Hc Hin]].
    { intros z' Hz'. apply Hall. now right. }
    rewrite Hc. cbn [rbind]. eexists. split; [reflexivity|].
    intros v. destruct r as [t|]; cbn [In]; rewrite Hin; split.
    + intros [<- | [z' [Hz' Hv]]]; [exists z; auto | exists z'; auto].
    + intros [z' [[<- | Hz'] Hv]].
      * rewrite Hr in Hv. injection Hv as <-. now left.
      * right. eauto.
    + intros [z' [Hz' Hv]]. eauto.
    + intros [z' [[<- | Hz'] Hv]]; [rewrite Hr in Hv; discriminate Hv | eauto].
Qed.

Lemma max_from_member items : forall best,
  max_from best items = best \/ In (max_from best items) items.
Proof.
  induction items as [|x xs IH]; intros best; cbn [max_from]; [now left|].
  destruct (IH (if gtb x best then x else best)) as [H | H].
  - rewrite H. destruct (gtb x best); [right; now left | now left].
  - right. now right.
Qed.

Lemma max_from_above_best items : forall best,
  comparable best -> (forall v, In v items -> comparable v) ->
  leb best (max_from best items) = true.
Proof.
  induction items as [|x xs IH]; intros best Hb Hall; cbn [max_from].
  - now apply leb_refl.
  - destruct (gtb x best) eqn:Hg.
    + apply leb_trans with x; [now apply gtb_leb|].
      apply IH; [apply Hall; now left | intros v Hv; apply Hall; now right].
    + apply IH; [exact Hb | intros v Hv; apply Hall; now right].
Qed.

Lemma max_from_bounds items : forall best,
  comparable best -> (forall v, In v items -> comparable v) ->
  forall v, In v items -> leb v (max_from best items) = true.
Proof.
  induction items as [|x xs IH]; intros best Hb Hall v Hv; [destruct Hv|].
  cbn [max_from].
  assert (Hx : comparable x) by (apply Hall; now left).
  assert (Hxs : forall w, In w xs -> comparable w)
    by (intros w Hw; apply Hall; now right).
  destruct Hv as [<- | Hv].
  - destruct (gtb x best) eqn:Hg.
    + now apply max_from_above_best.
    + apply leb_trans with best; [now apply not_gtb_leb|].
      now apply max_from_above_best.
  - apply IH; auto. now destruct (gtb x best).
Qed.

Lemma max_or_none_readings temps :
  (forall v, In v temps -> comparable v) ->
  (max_or_none temps = None <-> temps = [])
  /\ forall m, max_or_none temps = Some m ->
       In m temps /\ forall v, In v temps -> leb v m = true.
Proof.
  intros Hall. destruct temps as [|x xs]; cbn [max_or_none].
  - split; [tauto | discriminate].
  - split; [split; discriminate|]. intros m [= <-].
    assert (Hx : comparable x) by (apply Hall; now left).
    assert (Hxs : forall w, In w xs -> comparable w)
      by (intros w Hw; apply Hall; now right).
    split.
    + destruct (max_from_member xs x) as [-> | H]; [now left | now right].
    + intros v [<- | Hv];
        [now apply max_from_above_best | now apply max_from_bounds].
Qed.

(** Sampling when no read raises. *)
Lemma sample_returns h zones :
  (forall z, In z zones -> exists r, read_temp h z = Ok r) ->
  exists r,
    sample h zones = Ok r
    /\ (r = None <-> forall z, In z zones -> read_temp h z = Ok None)
    /\ forall m, r = Some m ->
         (exists z, In z zones /\ read_temp h z = Ok (Some m))
         /\ forall z v, In z zones -> read_temp h z = Ok (Some v) ->
                        leb v m = true.
Proof.
  intros Hall. unfold sample.
  destruct (collect_readings h zones Hall) as [temps [Hc Hin]].
  rewrite Hc. cbn [rbind]. eexists. split; [reflexivity|].
  assert (Hcmp : forall v, In v temps -> comparable v).
  { intros v Hv. apply Hin in Hv. destruct Hv as [z [_ Hz]].
    eapply read_temp_comparable; eauto. }
  destruct (max_or_none_readings temps Hcmp) as [Hnone Hsome].
  split; [|intros m Hm; destruct (Hsome m Hm) as [Hmem Hup]; split].
  - rewrite Hnone. split.
    + intros -> z Hz. destruct (Hall z Hz) as [[v|] Hr]; [|exact Hr].
      exfalso. apply (proj2 (Hin v)). eauto.
    + intros Hno. destruct temps as [|v temps]; [reflexivity|].
      destruct (proj1 (Hin v) (or_introl eq_refl)) as [z [Hz Hv]].
      rewrite (Hno z Hz) in Hv. discriminate Hv.
  - now apply Hin.
  - intros z v Hz Hv. apply Hup. apply Hin. eauto.
Qed.

Lemma sample_raises h zones e :
  sample h zones = Raise e <->
  exists pre zone post,
    zones = (pre ++ zone :: post)%list
    /\ (forall z, In z pre -> exists r, read_temp h z = Ok r)
    /\ read_temp h zone = Raise e.
Proof.
  unfold sample. split.
  - destruct (collect h zones) as [temps|e0] eqn:Hc; [discriminate|].
    cbn [rbind]. intros [= <-]. now apply collect_raises.
  - intros [pre [zone [post [-> [Hpre Hzone]]]]].
    now rewrite (collect_escape h zone post e pre Hpre Hzone).
Qed.

End MachineSensorFacts.

(** C8. The claim fails where the read of a candidate raises an exception
    that [read_temp] does not catch. On the host [Fixtures64.faulty] the
    read of thermal_zone0 fails with an I/O error while thermal_zone1 holds
    45000: the candidate is not skipped, the [OSError] leaves [read_temp]
    and [get_cpu_temp], and no reading is returned although 45.0 could be
    read; with the same file locked instead, the sample is 45.0. In
    general, sampling raises exactly when the read of some candidate
    raises, and a read raises exactly on an [OSError] other than the two
    caught and on an integer too large for [temp / 1000.0]. On a host where
    no read raises, sampling is as claimed: [None] exactly when no
    candidate is readable, otherwise one of the readings, and no reading
    exceeds it; a reading is the integer itself when it is at most 200 and
    [temp / 1000.0] when it is above. *)
Theorem sensor_error_escapes_sampling
    (h : ThermalMonitor64.host) (zones : list string) :
  let read_temp := ThermalMonitor64.read_temp h in
  let sample := ThermalMonitor64.sample h in
  (ThermalMonitor64.get_cpu_temp Fixtures64.faulty = Raise OSError
   /\ ThermalMonitor64.read_temp Fixtures64.faulty Fixtures64.zone1
      = Ok (Some (Fixtures64.reading 45000))
   /\ ThermalMonitor64.get_cpu_temp Fixtures64.locked
      = Ok (Some (Fixtures64.reading 45000)))
  /\ (forall e, sample zones = Raise e <->
        exists pre zone post,
          zones = (pre ++ zone :: post)%list
          /\ (forall z, In z pre -> exists r, read_temp z = Ok r)
          /\ read_temp zone = Raise e)
  /\ (forall path e, read_temp path = Raise e <->
        (ThermalMonitor64.read h path = ThermalMonitor64.OtherOSError
         /\ e = OSError)
        \/ (exists s raw,
              ThermalMonitor64.read h path = ThermalMonitor64.Content s
              /\ Py.int_of_str (Py.strip s) = Some raw
              /\ 200 < raw
              /\ PyNumber.of_int raw = Raise e
              /\ e = OverflowError))
  /\ ((forall z, In z zones -> exists r, read_temp z = Ok r) ->
      exists r,
        sample zones = Ok r
        /\ (r = None <-> forall z, In z zones -> read_temp z = Ok None)
        /\ forall m, r = Some m ->
             (exists z, In z zones /\ read_temp z = Ok (Some m))
             /\ forall z v, In z zones -> read_temp z = Ok (Some v) ->
                            PyNumber.leb v m = true)
  /\ (forall path v, read_temp path = Ok (Some v) <->
        exists s raw,
          ThermalMonitor64.read h path = ThermalMonitor64.Content s
          /\ Py.int_of_str (Py.strip s) = Some raw
          /\ ((raw <= 200 /\ v = PyNumber.Int raw)
              \/ (200 < raw
                  /\ PyNumber.truediv (PyNumber.Int raw)
                       (PyNumber.Float PyNumber.thousand) = Ok v)))
  /\ ThermalMonitor64.get_cpu_temp h
     = ThermalMonitor64.sample h (fst (ThermalMonitor64.find_thermal_zones h))
  /\ ThermalMonitor64.get_gpu_temp h
     = ThermalMonitor64.sample h (snd (ThermalMonitor64.find_thermal_zones h)).
Proof.
  intros read_temp sample. subst read_temp sample.
  split; [vm_compute; repeat split|].
  split; [intros e; apply MachineSensorFacts.sample_raises|].
  split; [intros path e; apply MachineSensorFacts.read_temp_raises|].
  split; [apply MachineSensorFacts.sample_returns|].
  split; [|split; reflexivity].
  intros path v. rewrite MachineSensorFacts.read_temp_reading.
  split; intros [s [raw [Hread [Hint Hn]]]]; exists s, raw;
    (split; [exact Hread|]); (split; [exact Hint|]).
  - unfold ThermalMonitor64.normalize in Hn.
    destruct (200 <? raw) eqn:H200.
    + right. apply Z.ltb_lt in H200. auto.
    + left. apply Z.ltb_ge in H200. injection Hn as <-. auto.
  - unfold ThermalMonitor64.normalize.
    destruct Hn as [[H200 ->] | [H200 Hdiv]].
    + apply Z.ltb_ge in H200. now rewrite H200.
    + apply Z.ltb_lt in H200. now rewrite H200.
Qed.

(** ** FanController: the text of the control file *)

Module ActuatorFacts.

Import FanController Chars PyFacts.

Lemma fan_value_solid cpu gpu : all_chars solid (fan_value cpu gpu) = true.
Proof.
  unfold fan_value. rewrite !all_chars_app. cbn [all_chars].
  rewrite !(all_chars_weaken numeral solid _ numeral_solid)
    by apply str_of_int_numeral.
  reflexivity.
Qed.

Lemma split_fan_value cpu gpu :
  Py.split_comma (fan_value cpu gpu)
  = [Py.str_of_int cpu; Py.str_of_int gpu].
Proof.
  unfold fan_value. cbn [append].
  rewrite split_comma_app, split_comma_field; [reflexivity | |];
    apply (all_chars_weaken numeral); auto using numeral_not_comma,
      str_of_int_numeral.
Qed.

Lemma parse_fan_value cpu gpu :
  parse_speeds (fan_value cpu gpu) = Ok (Some (cpu, gpu)).
Proof.
  unfold parse_speeds.
  rewrite strip_solid by apply fan_value_solid.
  rewrite split_fan_value. cbn [index nth_error rbind].
  now rewrite !int_of_str_of_int.
Qed.

(** A text without comma whose only field is an integer makes the second
    subscript fail. *)
Lemma parse_single_field text n :
  all_chars not_comma (Py.strip text) = true ->
  Py.int_of_str (Py.strip text) = Some n ->
  parse_speeds text = Raise IndexError.
Proof.
  intros Hc Hn. unfold parse_speeds.
  rewrite (split_comma_field _ Hc). cbn [index nth_error rbind].
  now rewrite Hn.
Qed.

Lemma split_comma_nonempty s : Py.split_comma s <> [].
Proof.
  destruct s as [|c s]; cbn [Py.split_comma]; [discriminate|].
  destruct (Ascii.eqb c ","); [discriminate|].
  destruct (Py.split_comma s); discriminate.
Qed.

(** Reading back raises exactly when the text has a single field and that
    field is an integer; nothing but [IndexError] is ever raised. *)
Lemma parse_speeds_raises text e :
  parse_speeds text = Raise e <->
  e = IndexError
  /\ exists s0 n, Py.split_comma (Py.strip text) = [s0]
                 /\ Py.int_of_str s0 = Some n.
Proof.
  unfold parse_speeds.
  pose proof (split_comma_nonempty (Py.strip text)) as Hne.
  destruct (Py.split_comma (Py.strip text)) as [|s0 [|s1 fields]];
    [congruence | |]; cbn [index nth_error rbind].
  - destruct (Py.int_of_str s0) as [n|] eqn:H0.
    + split.
      * intros [= <-]. split; [reflexivity|]. exists s0, n. auto.
      * intros [-> _]. reflexivity.
    + split; [discriminate|].
      intros [_ [s [n [[= <-] Hn]]]]. congruence.
  - split.
    + destruct (Py.int_of_str s0); [destruct (Py.int_of_str s1)|]; discriminate.
    + intros [_ [s [n [Hs _]]]]. discriminate.
Qed.

End ActuatorFacts.

(** C9. The duties 41 and 67 are written as the text "41,67", that text is
    read back as the pair (41, 67), and for all integer duties reading the
    control file after a successful write returns the pair written. *)
Theorem actuator_round_trip :
  FanController.fan_value 41 67 = "41,67"
  /\ FanController.parse_speeds "41,67" = Ok (Some (41, 67))
  /\ (forall cpu gpu,
        FanController.parse_speeds (FanController.fan_value cpu gpu)
        = Ok (Some (cpu, gpu)))
  /\ (forall old cpu gpu,
        let ep := {| FanController.available := true;
                     FanController.content := old |} in
        snd (FanController.set_fan_speed ep cpu gpu) = true
        /\ FanController.get_fan_speed
             (fst (FanController.set_fan_speed ep cpu gpu))
           = Ok (Some (cpu, gpu))).
Proof.
  split; [reflexivity|]. split; [reflexivity|]. split.
  - apply ActuatorFacts.parse_fan_value.
  - intros old cpu gpu ep. split; [reflexivity|].
    cbn. apply ActuatorFacts.parse_fan_value.
Qed.

(** C5. Reading back a control file that holds "41", an integer and no
    comma, does not return the failure value: the subscript [speeds[1]]
    raises [IndexError], which [get_fan_speed] does not catch. The same
    happens with a trailing newline; a non-numeric text gives [None]. *)
Theorem get_fan_speed_single_field_raises :
  FanController.get_fan_speed
    {| FanController.available := true; FanController.content := "41" |}
  = Raise IndexError
  /\ FanController.get_fan_speed
       {| FanController.available := true;
          FanController.content := String "4" (String "1" (String "010" "")) |}
     = Raise IndexError
  /\ FanController.get_fan_speed
       {| FanController.available := true; FanController.content := "auto" |}
     = Ok None.
Proof. repeat split. Qed.

(** ** FanCurve: the scan of the curve *)

Module CurveFacts.

Import FanCurve.
Import ThermalFacts.

Lemma Qle_bool_false a b : Qle_bool a b = false <-> (b < a)%Q.
Proof.
  rewrite <- not_true_iff_false, Qle_bool_iff.
  split; [apply Qnot_le_lt | apply Qlt_not_le].
Qed.

Lemma Qle_bool_inject a b : Qle_bool (inject_Z a) (inject_Z b) = (a <=? b).
Proof. unfold Qle_bool. simpl. now rewrite !Z.mul_1_r. Qed.

Lemma Qabs_inject_sub a b :
  (Qabs (inject_Z a - inject_Z b) == inject_Z (Z.abs (a - b)))%Q.
Proof.
  unfold Qminus. rewrite <- inject_Z_opp, <- inject_Z_plus.
  unfold inject_Z. symmetry. apply Zabs_Qabs.
Qed.

#[global] Instance Qle_bool_proper :
  Proper (Qeq ==> Qeq ==> eq) Qle_bool.
Proof.
  intros a a' Ha b b' Hb. apply eq_true_iff_eq.
  rewrite !Qle_bool_iff. now rewrite Ha, Hb.
Qed.

#[global] Instance trunc_proper : Proper (Qeq ==> eq) Py.trunc.
Proof.
  intros a a' Ha. unfold Py.trunc.
  now rewrite Ha, (Qfloor_comp _ _ Ha), (Qceiling_comp _ _ Ha).
Qed.

Lemma trunc_inject z : Py.trunc (inject_Z z) = z.
Proof.
  unfold Py.trunc. destruct (Qle_bool 0 (inject_Z z));
    [apply Qfloor_Z | apply Qceiling_Z].
Qed.

(** Rounding toward zero stays between integer bounds. *)
Lemma trunc_between lo hi x :
  (inject_Z lo <= x)%Q -> (x <= inject_Z hi)%Q -> lo <= Py.trunc x <= hi.
Proof.
  intros Hlo Hhi. unfold Py.trunc. destruct (Qle_bool 0 x).
  - split.
    + rewrite <- (Qfloor_Z lo). now apply Qfloor_resp_le.
    + rewrite <- (Qfloor_Z hi). now apply Qfloor_resp_le.
  - split.
    + rewrite <- (Qceiling_Z lo). now apply Qceiling_resp_le.
    + rewrite <- (Qceiling_Z hi). now apply Qceiling_resp_le.
Qed.

(** The integer part is less than one away, on the side of zero. *)
Lemma trunc_near x :
  ((0 <= x /\ inject_Z (Py.trunc x) <= x /\ x < inject_Z (Py.trunc x) + 1)
   \/ (x < 0 /\ inject_Z (Py.trunc x) - 1 < x /\ x <= inject_Z (Py.trunc x)))%Q.
Proof.
  unfold Py.trunc. destruct (Qle_bool 0 x) eqn:Hx.
  - left. apply Qle_bool_iff in Hx. repeat split; auto using Qfloor_le.
    pose proof (Qlt_floor x) as H. now rewrite inject_Z_plus in H.
  - right. apply Qle_bool_false in Hx. repeat split; auto using Qle_ceiling.
    pose proof (Qceiling_lt x) as H.
    unfold Z.sub in H. now rewrite inject_Z_plus, inject_Z_opp in H.
Qed.

Section Scan.

Variable cfg : config.
Variable t : Q.
Variable current_fan : Z.

Local Abbreviation band := (get_hysteresis cfg).
Local Abbreviation hyst := (apply_hysteresis cfg current_fan).

#[local] Instance apply_hysteresis_proper : Proper (Qeq ==> eq) hyst.
Proof.
  intros x y Hxy. unfold apply_hysteresis, Py.Qgtb.
  rewrite (trunc_proper _ _ Hxy). now rewrite Hxy.
Qed.

Lemma apply_hysteresis_inject d :
  hyst (inject_Z d) = if band <? Z.abs (d - current_fan) then d else current_fan.
Proof.
  unfold apply_hysteresis, Py.Qgtb.
  rewrite Qabs_inject_sub, Qle_bool_inject, trunc_inject.
  now rewrite Z.ltb_antisym.
Qed.

Lemma index_middle (pre : list point) prev rest :
  index (pre ++ prev :: rest) (List.length pre) = Ok prev.
Proof.
  unfold index. rewrite nth_error_app2 by lia.
  now rewrite Nat.sub_diag.
Qed.

Lemma last_cons (p d : point) rest : last (p :: rest) d = last rest p.
Proof.
  revert p d. induction rest as [|q rest IH]; intros p d; [reflexivity|].
  change (last (p :: q :: rest) d) with (last (q :: rest) d).
  now rewrite (IH q d), (IH q p).
Qed.

(** Between two points with [temp prev < t <= temp p] the source's
    interpolation is the specification's formula. *)
Lemma interpolate_spec prev p rest :
  (temp prev < t)%Q -> Qle_bool t (temp p) = true ->
  interpolate t prev p = Spec.target_above prev (p :: rest) t.
Proof.
  intros Hprev Hp. apply Qle_bool_iff in Hp.
  assert (Hlt : (temp prev < temp p)%Q) by (eapply Qlt_le_trans; eauto).
  unfold interpolate. cbn [Spec.target_above].
  replace (Qle_bool t (temp p)) with true by (symmetry; now apply Qle_bool_iff).
  replace (Py.Qgtb (temp p - temp prev) 0) with true
    by (symmetry; apply Qgtb_true; lra).
  replace (Qeq_bool (temp p) (temp prev)) with false; [reflexivity|].
  symmetry. apply not_true_iff_false. rewrite Qeq_bool_iff. lra.
Qed.

(** The scan, resumed after a point [prev] that lies below [t]. *)
Lemma scan_above rest : forall pre prev,
  (temp prev < t)%Q ->
  scan cfg t (pre ++ prev :: rest) current_fan (S (List.length pre)) rest
  = Ok (if Spec.reaches t rest
        then hyst (Spec.target_above prev rest t)
        else fan (last rest prev)).
Proof.
  induction rest as [|p rest IH]; intros pre prev Hprev.
  - cbn [scan Spec.reaches existsb last]. unfold index_last.
    rewrite length_app. cbn [List.length].
    replace (List.length pre + 1 - 1)%nat with (List.length pre) by lia.
    now rewrite index_middle.
  - cbn [scan Spec.reaches existsb].
    destruct (Qle_bool t (temp p)) eqn:Hp.
    + cbn [Nat.eqb orb].
      replace (S (List.length pre) - 1)%nat with (List.length pre) by lia.
      rewrite index_middle. cbn [rbind].
      now rewrite (interpolate_spec prev p rest Hprev Hp).
    + cbn [orb]. apply Qle_bool_false in Hp.
      specialize (IH (pre ++ [prev])%list p Hp).
      rewrite length_app in IH. cbn [List.length] in IH.
      replace (List.length pre + 1)%nat with (S (List.length pre)) in IH by lia.
      rewrite <- app_assoc in IH. cbn [app] in IH. rewrite IH.
      unfold Spec.reaches. rewrite last_cons.
      cbn [Spec.target_above].
      replace (Qle_bool t (temp p)) with false
        by (symmetry; now apply Qle_bool_false).
      reflexivity.
Qed.

Lemma reaches_true rest :
  Spec.reaches t rest = true <-> exists p, In p rest /\ (t <= temp p)%Q.
Proof.
  unfold Spec.reaches. rewrite existsb_exists.
  split; intros [p [Hin Hp]]; exists p; split; auto; now apply Qle_bool_iff.
Qed.

Lemma reaches_false rest :
  Spec.reaches t rest = false <-> forall p, In p rest -> (temp p < t)%Q.
Proof.
  rewrite <- not_true_iff_false, reaches_true. split.
  - intros Hno p Hin. apply Qnot_le_lt. intros Hle. apply Hno. eauto.
  - intros Hall [p [Hin Hle]]. apply (Qlt_not_le _ _ (Hall p Hin) Hle).
Qed.

(** The whole computation on a curve that has a first point. *)
Lemma calculate_fan_speed_cons p0 rest :
  calculate_fan_speed cfg (Some t) (p0 :: rest) current_fan
  = Ok (if Qle_bool t (temp p0) then fan p0
        else if Spec.reaches t rest
             then hyst (Spec.target_above p0 rest t)
             else fan (last rest p0)).
Proof.
  cbn [calculate_fan_speed scan]. destruct (Qle_bool t (temp p0)) eqn:H0.
  - reflexivity.
  - apply Qle_bool_false in H0. exact (scan_above rest [] p0 H0).
Qed.

End Scan.

End CurveFacts.

(** The two worked scenarios of the specification. *)
Example scenario_commit :
  FanCurve.calculate_fan_speed Fixtures.scenario_config (Some 40%Q)
    Fixtures.scenario_curve 20 = Ok 35.
Proof. reflexivity. Qed.

Example scenario_hold :
  FanCurve.calculate_fan_speed Fixtures.scenario_config (Some 42%Q)
    Fixtures.scenario_curve 35 = Ok 35.
Proof. reflexivity. Qed.

Example sensors_read :
  ThermalMonitor.get_cpu_temp Fixtures.both_sensors = Some (50000 # 1000)%Q
  /\ ThermalMonitor.get_gpu_temp Fixtures.both_sensors = Some (62500 # 1000)%Q
  /\ ThermalMonitor.get_gpu_temp Fixtures.cpu_only = None
  /\ ThermalMonitor.get_cpu_temp Fixtures.no_sensors = None.
Proof. repeat split. Qed.

(** ** FanCurve: where the hysteresis band acts *)

(** C1, as stated, fails at both ends of the default CPU curve (band 2).
    At 30 degrees with current duty 24 the source returns the lowest duty
    25 although it is within the band of 24; at 90 degrees with current duty
    99 it returns 100 although it is within the band of 99. The filter of
    the specification holds the current duty in both cases. *)
Lemma hysteresis_skipped_at_the_ends :
  let cfg := FanCurve.default_config in
  let band := FanCurve.get_hysteresis cfg in
  let curve := FanCurve.cpu_curve cfg in
  (FanCurve.calculate_fan_speed cfg (Some 30%Q) curve 24 = Ok 25
   /\ Z.abs (25 - 24) <= band
   /\ Spec.committed band curve 30%Q 24 = Some 24
   /\ FanCurve.calculate_fan_speed cfg (Some 30%Q) curve 24 <> Ok 24)
  /\ (FanCurve.calculate_fan_speed cfg (Some 90%Q) curve 99 = Ok 100
      /\ Z.abs (100 - 99) <= band
      /\ Spec.committed band curve 90%Q 99 = Some 99
      /\ FanCurve.calculate_fan_speed cfg (Some 90%Q) curve 99 <> Ok 99).
Proof. cbv. intuition discriminate. Qed.

(** ** FanCurve with Python numbers: the scan of the curve *)

Module MachineCurveFacts.

Import PyNumber FanCurve64.

Lemma index_after {A} (pre : list A) x rest :
  index (pre ++ x :: rest) (List.length pre) = Ok x.
Proof.
  unfold index. rewrite nth_error_app2 by lia.
  now rewrite Nat.sub_diag.
Qed.

Lemma last_after (p d : point) rest : last (p :: rest) d = last rest p.
Proof.
  revert p d. induction rest as [|q rest IH]; intros p d; [reflexivity|].
  change (last (p :: q :: rest) d) with (last (q :: rest) d).
  now rewrite (IH q d), (IH q p).
Qed.

Section Scan.

Variable cfg : config.
Variable t : num.
Variable current_fan : Z.

(** The scan, resumed after a point [prev] that failed the test. *)
Lemma scan_after rest : forall pre prev,
  scan cfg t (pre ++ prev :: rest) current_fan (S (List.length pre)) rest
  = match bracket t prev rest with
    | Some (a, b) => between cfg t current_fan a b
    | None => Ok (fan (last rest prev))
    end.
Proof.
  induction rest as [|p rest IH]; intros pre prev.
  - cbn [scan bracket last]. unfold index_last.
    rewrite length_app. cbn [List.length].
    replace (List.length pre + 1 - 1)%nat with (List.length pre) by lia.
    now rewrite index_after.
  - cbn [scan bracket]. destruct (leb t (temp p)) eqn:Hp.
    + cbn [Nat.eqb].
      replace (S (List.length pre) - 1)%nat with (List.length pre) by lia.
      now rewrite index_after.
    + specialize (IH (pre ++ [prev])%list p).
      rewrite length_app in IH. cbn [List.length] in IH.
      replace (List.length pre + 1)%nat with (S (List.length pre)) in IH by lia.
      rewrite <- app_assoc in IH. cbn [app] in IH. rewrite IH.
      now rewrite last_after.
Qed.

(** The whole computation on a curve that has a first point. *)
Lemma calculate_from_first p0 rest :
  calculate_fan_speed cfg (Some t) (p0 :: rest) current_fan
  = if leb t (temp p0) then Ok (fan p0)
    else match bracket t p0 rest with
         | Some (a, b) => between cfg t current_fan a b
         | None => Ok (fan (last rest p0))
         end.
Proof.
  cbn [calculate_fan_speed scan]. destruct (leb t (temp p0)); [reflexivity|].
  exact (scan_after rest [] p0).
Qed.

Lemma bracket_none rest : forall prev,
  (forall p, In p rest -> leb t (temp p) = false) ->
  bracket t prev rest = None.
Proof.
  induction rest as [|p rest IH]; intros prev Hall; [reflexivity|].
  cbn [bracket]. rewrite (Hall p (or_introl eq_refl)).
  apply IH. intros q Hq. apply Hall. now right.
Qed.

Lemma bracket_found prev p post : forall pre q,
  (forall x, In x (pre ++ [prev]) -> leb t (temp x) = false) ->
  leb t (temp p) = true ->
  bracket t q (pre ++ prev :: p :: post) = Some (prev, p).
Proof.
  induction pre as [|x pre IH]; intros q Hpre Hp; cbn [app bracket].
  - rewrite (Hpre prev (or_introl eq_refl)). now rewrite Hp.
  - rewrite (Hpre x (or_introl eq_refl)).
    apply IH; [|exact Hp]. intros y Hy. apply Hpre. now right.
Qed.

(** A curve split at the first point that is at or above the
    temperature, which is not the first point of the curve. *)
Lemma calculate_between pre prev p post :
  (forall x, In x (pre ++ [prev]) -> leb t (temp x) = false) ->
  leb t (temp p) = true ->
  calculate_fan_speed cfg (Some t) (pre ++ prev :: p :: post) current_fan
  = between cfg t current_fan prev p.
Proof.
  intros Hpre Hp. destruct pre as [|p0 pre]; cbn [app];
    rewrite calculate_from_first.
  - rewrite (Hpre prev (or_introl eq_refl)). cbn [bracket]. now rewrite Hp.
  - rewrite (Hpre p0 (or_introl eq_refl)).
    rewrite bracket_found; [reflexivity| |exact Hp].
    intros x Hx. apply Hpre. now right.
Qed.

End Scan.

End MachineCurveFacts.

(** The reading 69.0 on the curve 40 -> 0, 90 -> 100 with band 2. The
    interpolation gives 57.99999999999999 where the exact value is 58:
    from the duty 60 the change exceeds the band and 57 is committed; from
    the duty 0 the committed duty is 57 as well. *)
Example rounded_interpolation :
  let t := Fixtures64.reading 69000 in
  let cfg := Fixtures64.steep_config in
  let curve := Fixtures64.steep_curve in
  t = PyNumber.Float (S754_finite false 4855443348258816 (-46))
  /\ FanCurve64.interpolate t (FanCurve64.pt 40 0) (FanCurve64.pt 90 100)
     = Ok (PyNumber.Float (S754_finite false 8162774324609023 (-47)))
  /\ FanCurve64.calculate_fan_speed cfg (Some t) curve 60 = Ok 57
  /\ FanCurve64.calculate_fan_speed cfg (Some t) curve 0 = Ok 57
  /\ FanCurve.calculate_fan_speed FanCurve.default_config (Some (69000 # 1000)%Q)
       [FanCurve.pt 40 0; FanCurve.pt 90 100] 60 = Ok 60.
Proof. vm_compute. repeat split. Qed.

(** On the inputs where the exact layer refutes C1 and C3 as stated, the
    machine layer gives the same duties. *)
Example exact_examples_with_floats :
  let cfg := Fixtures64.half_config in
  let dflt := {| FanCurve64.cpu_curve := Fixtures64.default_cpu_curve;
                 FanCurve64.gpu_curve := Fixtures64.default_cpu_curve;
                 FanCurve64.hysteresis := Some 2;
                 FanCurve64.update_interval := Some 1 |} in
  FanCurve64.calculate_fan_speed cfg (Some (Fixtures64.reading 40000))
    Fixtures64.half_curve 30 = Ok 32
  /\ FanCurve64.calculate_fan_speed dflt (Some (Fixtures64.reading 30000))
       Fixtures64.default_cpu_curve 24 = Ok 25
  /\ FanCurve64.calculate_fan_speed dflt (Some (Fixtures64.reading 90000))
       Fixtures64.default_cpu_curve 99 = Ok 100.
Proof. vm_compute. repeat split. Qed.

(** C1, amended. Numbers are Python's: ints and binary64 floats. On a
    curve with first point [p0], at or below [p0] the result is the duty of
    [p0], and when no point is at or above the temperature it is the duty
    of the last point, in both cases whatever the band and the current
    duty. Otherwise let [p] be the first point at or above the temperature
    and [prev] the point before it: the band decides between them. With
    [target] the value the source interpolates between [prev] and [p], and
    [change] the difference [target - current_fan], the result is
    [int(target)] when [abs(change) > band] holds and the current duty when
    it does not. An exception of that arithmetic is the outcome of the
    call. *)
Theorem hysteresis_between_breakpoints
    (cfg : FanCurve64.config) (p0 : FanCurve64.point)
    (rest : list FanCurve64.point) (t : PyNumber.num) (current_fan : Z) :
  let result :=
    FanCurve64.calculate_fan_speed cfg (Some t) (p0 :: rest) current_fan in
  let band := PyNumber.Int (FanCurve64.get_hysteresis cfg) in
  (PyNumber.leb t (FanCurve64.temp p0) = true ->
   result = Ok (FanCurve64.fan p0))
  /\ ((forall p, In p (p0 :: rest) ->
         PyNumber.leb t (FanCurve64.temp p) = false) ->
      result = Ok (FanCurve64.fan (last rest p0)))
  /\ (forall pre prev p post,
        p0 :: rest = (pre ++ prev :: p :: post)%list ->
        (forall q, In q (pre ++ [prev]) ->
           PyNumber.leb t (FanCurve64.temp q) = false) ->
        PyNumber.leb t (FanCurve64.temp p) = true ->
        (forall e, FanCurve64.interpolate t prev p = Raise e ->
           result = Raise e)
        /\ forall target,
             FanCurve64.interpolate t prev p = Ok target ->
             (forall e,
                PyNumber.sub target (PyNumber.Int current_fan) = Raise e ->
                result = Raise e)
             /\ forall change,
                  PyNumber.sub target (PyNumber.Int current_fan) = Ok change ->
                  (PyNumber.gtb (PyNumber.abs change) band = false ->
                   result = Ok current_fan)
                  /\ (PyNumber.gtb (PyNumber.abs change) band = true ->
                      result = PyNumber.to_int target)).
Proof.
  intros result band. subst result. split; [|split].
  - intros H0. rewrite MachineCurveFacts.calculate_from_first. now rewrite H0.
  - intros Hall. rewrite MachineCurveFacts.calculate_from_first.
    rewrite (Hall p0 (or_introl eq_refl)).
    rewrite MachineCurveFacts.bracket_none; [reflexivity|].
    intros p Hp. apply Hall. now right.
  - intros pre prev p post Heq Hpre Hp. rewrite Heq.
    rewrite (MachineCurveFacts.calculate_between cfg t current_fan
               pre prev p post Hpre Hp).
    unfold FanCurve64.between. split.
    + intros e ->. reflexivity.
    + intros target ->. cbn [rbind]. unfold FanCurve64.apply_hysteresis.
      fold band. split.
      * intros e ->. reflexivity.
      * intros change ->. cbn [rbind]. split; intros ->; reflexivity.
Qed.

Lemma hysteresis_between_breakpoints_witness :
  let steep := Fixtures64.steep_config in
  let dflt := {| FanCurve64.cpu_curve := Fixtures64.default_cpu_curve;
                 FanCurve64.gpu_curve := Fixtures64.default_cpu_curve;
                 FanCurve64.hysteresis := Some 2;
                 FanCurve64.update_interval := Some 1 |} in
  FanCurve64.calculate_fan_speed dflt (Some (Fixtures64.reading 30000))
    Fixtures64.default_cpu_curve 24 = Ok 25
  /\ FanCurve64.calculate_fan_speed dflt (Some (Fixtures64.reading 90000))
       Fixtures64.default_cpu_curve 99 = Ok 100
  /\ FanCurve64.calculate_fan_speed steep (Some (Fixtures64.reading 69000))
       Fixtures64.steep_curve 58 = Ok 58
  /\ FanCurve64.calculate_fan_speed steep (Some (Fixtures64.reading 69000))
       Fixtures64.steep_curve 60 = Ok 57.
Proof.
  intros steep dflt.
  pose (target := PyNumber.Float (S754_finite false 8162774324609023 (-47))).
  split; [|split; [|split]].
  - destruct (hysteresis_between_breakpoints dflt (FanCurve64.pt 35 25)
                (tl Fixtures64.default_cpu_curve) (Fixtures64.reading 30000) 24)
      as [Hlow _].
    apply Hlow. vm_compute. reflexivity.
  - destruct (hysteresis_between_breakpoints dflt (FanCurve64.pt 35 25)
                (tl Fixtures64.default_cpu_curve) (Fixtures64.reading 90000) 99)
      as [_ [Hhigh _]].
    apply Hhigh. intros p Hp.
    repeat (destruct Hp as [<- | Hp]; [vm_compute; reflexivity|]).
    contradiction.
  - destruct (hysteresis_between_breakpoints steep (FanCurve64.pt 40 0)
                [FanCurve64.pt 90 100] (Fixtures64.reading 69000) 58)
      as [_ [_ Hmid]].
    destruct (Hmid [] (FanCurve64.pt 40 0) (FanCurve64.pt 90 100) [] eq_refl)
      as [_ Htarget].
    + intros q [<- | []]. vm_compute. reflexivity.
    + vm_compute. reflexivity.
    + destruct (Htarget target) as [_ Hchange]; [vm_compute; reflexivity|].
      destruct (Hchange
                  (PyNumber.Float (S754_finite true 4503599627370496 (-99))))
        as [Hhold _]; [vm_compute; reflexivity|].
      apply Hhold. vm_compute. reflexivity.
  - destruct (hysteresis_between_breakpoints steep (FanCurve64.pt 40 0)
                [FanCurve64.pt 90 100] (Fixtures64.reading 69000) 60)
      as [_ [_ Hmid]].
    destruct (Hmid [] (FanCurve64.pt 40 0) (FanCurve64.pt 90 100) [] eq_refl)
      as [_ Htarget].
    + intros q [<- | []]. vm_compute. reflexivity.
    + vm_compute. reflexivity.
    + destruct (Htarget target) as [_ Hchange]; [vm_compute; reflexivity|].
      destruct (Hchange
                  (PyNumber.Float (S754_finite true 4503599627370512 (-51))))
        as [_ Hcommit]; [vm_compute; reflexivity|].
      etransitivity; [apply Hcommit; vm_compute; reflexivity|].
      vm_compute. reflexivity.
Defined.

(** C3, as stated, fails on the curve 30 -> 20, 50 -> 45 with band 2: at
    40 degrees the target is 32.5; with current duty 30 the source compares
    2.5 with the band and commits 32, while the truncated target 32 is
    within the band of 30 and the filter of the specification holds 30. *)
Lemma decision_uses_untruncated_target :
  let cfg := Fixtures.half_config in
  let curve := FanCurve.cpu_curve cfg in
  (Spec.raw_target (FanCurve.pt 30 20) [FanCurve.pt 50 45] 40 == 65 # 2)%Q
  /\ FanCurve.calculate_fan_speed cfg (Some 40%Q) curve 30 = Ok 32
  /\ Z.abs (Py.trunc (65 # 2)%Q - 30) <= FanCurve.get_hysteresis cfg
  /\ Spec.committed (FanCurve.get_hysteresis cfg) curve 40%Q 30 = Some 30
  /\ FanCurve.calculate_fan_speed cfg (Some 40%Q) curve 30 <> Ok 30.
Proof. cbv. intuition discriminate. Qed.

(** C3, amended. Numbers are Python's: ints and binary64 floats. Between
    two breakpoints the decision is taken on the target as interpolated,
    before any rounding: the source compares [abs(target - current_fan)]
    with the band and nothing else. Only a change is rounded: the value
    returned then is [int(target)], the exact value of the target rounded
    toward zero, and a result that differs from the current duty is always
    that value. *)
Theorem commit_compares_raw_target
    (cfg : FanCurve64.config) (pre : list FanCurve64.point)
    (prev p : FanCurve64.point) (post : list FanCurve64.point)
    (t : PyNumber.num) (current_fan : Z) (target change : PyNumber.num) :
  (forall q, In q (pre ++ [prev]) ->
     PyNumber.leb t (FanCurve64.temp q) = false) ->
  PyNumber.leb t (FanCurve64.temp p) = true ->
  FanCurve64.interpolate t prev p = Ok target ->
  PyNumber.sub target (PyNumber.Int current_fan) = Ok change ->
  let result :=
    FanCurve64.calculate_fan_speed cfg (Some t)
      (pre ++ prev :: p :: post) current_fan in
  let band := PyNumber.Int (FanCurve64.get_hysteresis cfg) in
  result = (if PyNumber.gtb (PyNumber.abs change) band
            then PyNumber.to_int target else Ok current_fan)
  /\ (forall r, result = Ok r -> r <> current_fan ->
        PyNumber.gtb (PyNumber.abs change) band = true
        /\ PyNumber.to_int target = Ok r)
  /\ (forall q, PyNumber.real_of target = Some (PyNumber.Fin q) ->
        PyNumber.to_int target = Ok (Py.trunc q)).
Proof.
  intros Hpre Hp Htarget Hchange result band. subst result.
  rewrite (MachineCurveFacts.calculate_between cfg t current_fan
             pre prev p post Hpre Hp).
  unfold FanCurve64.between. rewrite Htarget. cbn [rbind].
  unfold FanCurve64.apply_hysteresis. rewrite Hchange. cbn [rbind].
  fold band. split; [reflexivity|]. split.
  - intros r Hr Hne. destruct (PyNumber.gtb (PyNumber.abs change) band).
    + auto.
    + injection Hr as <-. now elim Hne.
  - intros q Hq. unfold PyNumber.to_int. now rewrite Hq.
Qed.

Lemma commit_compares_raw_target_witness :
  FanCurve64.calculate_fan_speed Fixtures64.half_config
    (Some (Fixtures64.reading 40000)) Fixtures64.half_curve 30 = Ok 32
  /\ PyNumber.to_int
       (PyNumber.Float (S754_finite false 4573968371548160 (-47)))
     = Ok (Py.trunc (65 # 2)%Q).
Proof.
  destruct (commit_compares_raw_target Fixtures64.half_config []
              (FanCurve64.pt 30 20) (FanCurve64.pt 50 45) []
              (Fixtures64.reading 40000) 30
              (PyNumber.Float (S754_finite false 4573968371548160 (-47)))
              (PyNumber.Float (S754_finite false 5629499534213120 (-51))))
    as [Hresult [_ Htrunc]].
  - intros q [<- | []]. vm_compute. reflexivity.
  - vm_compute. reflexivity.
  - vm_compute. reflexivity.
  - vm_compute. reflexivity.
  - split.
    + etransitivity; [exact Hresult|]. vm_compute. reflexivity.
    + rewrite (Htrunc (4573968371548160 # 2 ^ 47)%Q);
        [|vm_compute; reflexivity].
      vm_compute. reflexivity.
Defined.

(** ** FanCurve: the value at a breakpoint *)

Module BreakpointFacts.

Import FanCurve.

Lemma ascending_nth rest : forall prev k p,
  Spec.ascending_from prev rest = true ->
  nth_error rest k = Some p ->
  (temp prev < temp p)%Q.
Proof.
  induction rest as [|q rest IH]; intros prev k p Hasc Hk.
  - destruct k; discriminate.
  - cbn [Spec.ascending_from] in Hasc.
    apply andb_prop in Hasc. destruct Hasc as [Hq Hasc].
    apply ThermalFacts.Qgtb_true in Hq.
    destruct k as [|k]; cbn [nth_error] in Hk.
    + now injection Hk as <-.
    + eapply Qlt_trans; [exact Hq | eapply IH; eauto].
Qed.

(** On an ascending curve the first point at or above the temperature of
    a breakpoint is that breakpoint, and the interpolation ends on its
    duty. *)
Lemma target_at_breakpoint rest : forall prev k p,
  Spec.ascending_from prev rest = true ->
  nth_error rest k = Some p ->
  Spec.reaches (temp p) rest = true
  /\ (Spec.target_above prev rest (temp p) == inject_Z (fan p))%Q.
Proof.
  induction rest as [|q rest IH]; intros prev k p Hasc Hk.
  - destruct k; discriminate.
  - pose proof (ascending_nth _ _ _ _ Hasc Hk) as Hlt.
    cbn [Spec.ascending_from] in Hasc.
    apply andb_prop in Hasc. destruct Hasc as [Hq Hasc].
    destruct k as [|k]; cbn [nth_error] in Hk.
    + injection Hk as <-. cbn [Spec.reaches existsb Spec.target_above].
      replace (Qle_bool (temp q) (temp q)) with true
        by (symmetry; apply Qle_bool_iff, Qle_refl).
      split; [reflexivity|].
      replace (Qeq_bool (temp q) (temp prev)) with false.
      * unfold Z.sub. rewrite inject_Z_plus, inject_Z_opp. field. lra.
      * symmetry. apply not_true_iff_false. rewrite Qeq_bool_iff. lra.
    + pose proof (ascending_nth _ _ _ _ Hasc Hk) as Hqp.
      destruct (IH q k p Hasc Hk) as [Hr Ht].
      cbn [Spec.reaches existsb Spec.target_above].
      replace (Qle_bool (temp p) (temp q)) with false
        by (symmetry; now apply CurveFacts.Qle_bool_false).
      split; [exact Hr | exact Ht].
Qed.

End BreakpointFacts.




(** ** FanCurve: the result stays a percentage *)

Module RangeFacts.

Import FanCurve.

(** A convex combination of two integers lies between them. *)
Lemma between_endpoints (a b : Z) (o d : Q) :
  (0 < o)%Q -> (o <= d)%Q ->
  (inject_Z (Z.min a b) <= inject_Z a + o / d * inject_Z (b - a))%Q
  /\ (inject_Z a + o / d * inject_Z (b - a) <= inject_Z (Z.max a b))%Q.
Proof.
  intros Ho Hod.
  assert (Hd : (0 < d)%Q) by (eapply Qlt_le_trans; eauto).
  assert (Hf0 : (0 <= o / d)%Q).
  { apply Qle_shift_div_l; [exact Hd | lra]. }
  assert (Hf1 : (o / d <= 1)%Q).
  { apply Qle_shift_div_r; [exact Hd | lra]. }
  set (f := (o / d)%Q) in *. clearbody f.
  unfold Z.sub. rewrite inject_Z_plus, inject_Z_opp.
  destruct (Z.le_ge_cases a b) as [Hab | Hab].
  - rewrite (Z.min_l _ _ Hab), (Z.max_r _ _ Hab).
    rewrite Zle_Qle in Hab. split; nra.
  - rewrite (Z.min_r _ _ Hab), (Z.max_l _ _ Hab).
    rewrite Zle_Qle in Hab. split; nra.
Qed.

Section Between.

Variable t : Q.

(** Past the first point, a reachable target lies between the duties of
    two neighbouring points. *)
Lemma target_between rest : forall prev,
  (temp prev < t)%Q ->
  Spec.reaches t rest = true ->
  exists pre a b post,
    prev :: rest = (pre ++ a :: b :: post)%list
    /\ (inject_Z (Z.min (fan a) (fan b)) <= Spec.target_above prev rest t)%Q
    /\ (Spec.target_above prev rest t <= inject_Z (Z.max (fan a) (fan b)))%Q.
Proof.
  induction rest as [|p rest IH]; intros prev Hprev Hr; [discriminate|].
  cbn [Spec.reaches existsb] in Hr. cbn [Spec.target_above].
  destruct (Qle_bool t (temp p)) eqn:Hp.
  - apply Qle_bool_iff in Hp.
    exists [], prev, p, rest. split; [reflexivity|].
    replace (Qeq_bool (temp p) (temp prev)) with false
      by (symmetry; apply not_true_iff_false; rewrite Qeq_bool_iff; lra).
    apply between_endpoints; lra.
  - apply CurveFacts.Qle_bool_false in Hp.
    destruct (IH p Hp Hr) as [pre [a [b [post [Heq Hb]]]]].
    exists (prev :: pre), a, b, post. split; [|exact Hb].
    cbn [app]. now rewrite Heq.
Qed.

End Between.

Lemma last_In (p0 : point) rest : In (last rest p0) (p0 :: rest).
Proof.
  revert p0. induction rest as [|q rest IH]; intros p0; [now left|].
  rewrite CurveFacts.last_cons. right. apply IH.
Qed.

Lemma duty_of_point curve p :
  Spec.duties_ok curve = true -> In p curve -> 0 <= fan p <= 100.
Proof.
  unfold Spec.duties_ok, Spec.duty_ok. rewrite forallb_forall.
  intros Hall Hin. specialize (Hall p Hin). lia.
Qed.

End RangeFacts.




(** ** FanCurveController: one cycle *)

Module CycleFacts.

Import FanCurve FanCurveController.

Ltac step_cycle :=
  unfold run_once, bind, gets, lift, ret, raise, emit, set_last,
    write_duties, FanController.set_fan_speed,
    print_change.

(** Case analysis along the branches of [run_once]. *)
Ltac split_cycle h :=
  step_cycle;
  destruct (ThermalMonitor.get_cpu_temp h) as [?ct|] eqn:?Hcpu,
           (ThermalMonitor.get_gpu_temp h) as [?gt|] eqn:?Hgpu;
  repeat (cbn -[calculate_fan_speed Z.eqb];
          match goal with
          | |- context [calculate_fan_speed ?a ?b ?c ?d] =>
              destruct (calculate_fan_speed a b c d) as [?v|?e] eqn:?Hcalc
          | |- context [if ?b then _ else _] => destruct b eqn:?Hif
          end);
  cbn -[calculate_fan_speed Z.eqb].

(** A cycle only appends to the trace. *)
Lemma run_once_trace_grows cfg h c :
  exists tl, trace (snd (run_once cfg h c)) = (trace c ++ tl)%list.
Proof.
  split_cycle h.
  all: try (exists []; now rewrite app_nil_r).
  all: try (rewrite <- !app_assoc); eexists; reflexivity.
Qed.

(** The last duties change only through a successful write of exactly
    the new duties. *)
Lemma run_once_update_after_write cfg h c :
  let c' := snd (run_once cfg h c) in
  (last_cpu_fan c' <> last_cpu_fan c \/ last_gpu_fan c' <> last_gpu_fan c) ->
  FanController.available (endpoint c) = true
  /\ FanController.content (endpoint c')
     = FanController.fan_value (last_cpu_fan c') (last_gpu_fan c')
  /\ exists tl,
       trace c'
       = (trace c
          ++ SetFanSpeed (last_cpu_fan c') (last_gpu_fan c') true :: tl)%list.
Proof.
  split_cycle h; intros [Hne | Hne]; try congruence.
  all: split; [reflexivity|].
  all: split; [reflexivity|].
  all: try (rewrite <- app_assoc); eexists; reflexivity.
Qed.

(** With both readings present and curves that have a point, a cycle
    returns. *)
Lemma run_once_returns cfg h c ct gt :
  ThermalMonitor.get_cpu_temp h = Some ct ->
  ThermalMonitor.get_gpu_temp h = Some gt ->
  cpu_curve cfg <> [] -> gpu_curve cfg <> [] ->
  exists b, fst (run_once cfg h c) = Ok b.
Proof.
  intros Hc Hg Hcc Hgc. unfold run_once. rewrite Hc, Hg.
  destruct (cpu_curve cfg) as [|p0 rest]; [congruence|].
  destruct (gpu_curve cfg) as [|q0 rest']; [congruence|].
  step_cycle. rewrite !CurveFacts.calculate_fan_speed_cons.
  cbn -[Z.eqb].
  repeat match goal with
         | |- context [if ?b then _ else _] => destruct b; cbn -[Z.eqb]
         end; eauto.
Qed.

(** With exactly one reading missing, every cycle that writes new duties
    successfully ends in [TypeError]. *)
Lemma run_once_one_reading_missing cfg h c new_cpu_fan new_gpu_fan :
  (ThermalMonitor.get_cpu_temp h = None
   <-> ThermalMonitor.get_gpu_temp h <> None) ->
  calculate_fan_speed cfg (ThermalMonitor.get_cpu_temp h) (cpu_curve cfg)
    (last_cpu_fan c) = Ok new_cpu_fan ->
  calculate_fan_speed cfg (ThermalMonitor.get_gpu_temp h) (gpu_curve cfg)
    (last_gpu_fan c) = Ok new_gpu_fan ->
  new_cpu_fan <> last_cpu_fan c \/ new_gpu_fan <> last_gpu_fan c ->
  FanController.available (endpoint c) = true ->
  fst (run_once cfg h c) = Raise TypeError.
Proof.
  intros Hone Hcpu Hgpu Hne Hav. step_cycle.
  destruct (ThermalMonitor.get_cpu_temp h) as [ct|],
           (ThermalMonitor.get_gpu_temp h) as [gt|];
    try (exfalso; destruct Hone as [H1 H2];
         solve [discriminate H2; discriminate | now apply H1]).
  all: rewrite Hcpu, Hgpu; cbn -[Z.eqb].
  all: destruct (new_cpu_fan =? last_cpu_fan c) eqn:E1,
                (new_gpu_fan =? last_gpu_fan c) eqn:E2;
    cbn -[Z.eqb]; try rewrite Hav; try reflexivity.
  all: exfalso; apply Z.eqb_eq in E1, E2; tauto.
Qed.

End CycleFacts.

(** C7. In a cycle where both readings are [None], [set_fan_speed] is not
    called: the cycle prints the warning, returns [False] and leaves the
    control file and the last duties as they were. *)
Theorem no_sensors_no_write
    (cfg : FanCurve.config) (h : ThermalMonitor.host)
    (c : FanCurveController.controller) :
  ThermalMonitor.get_cpu_temp h = None ->
  ThermalMonitor.get_gpu_temp h = None ->
  let c' := snd (FanCurveController.run_once cfg h c) in
  fst (FanCurveController.run_once cfg h c) = Ok false
  /\ FanCurveController.trace c'
     = (FanCurveController.trace c ++ [FanCurveController.NoSensors])%list
  /\ FanCurveController.endpoint c' = FanCurveController.endpoint c
  /\ FanCurveController.last_cpu_fan c' = FanCurveController.last_cpu_fan c
  /\ FanCurveController.last_gpu_fan c' = FanCurveController.last_gpu_fan c.
Proof.
  intros Hcpu Hgpu. unfold FanCurveController.run_once.
  rewrite Hcpu, Hgpu. cbn. auto.
Qed.

Lemma no_sensors_no_write_witness :
  let c' := snd (FanCurveController.run_once FanCurve.default_config
                   Fixtures.no_sensors Fixtures.fresh) in
  fst (FanCurveController.run_once FanCurve.default_config
         Fixtures.no_sensors Fixtures.fresh) = Ok false
  /\ FanCurveController.trace c'
     = (FanCurveController.trace Fixtures.fresh
        ++ [FanCurveController.NoSensors])%list
  /\ FanCurveController.endpoint c'
     = FanCurveController.endpoint Fixtures.fresh
  /\ FanCurveController.last_cpu_fan c'
     = FanCurveController.last_cpu_fan Fixtures.fresh
  /\ FanCurveController.last_gpu_fan c'
     = FanCurveController.last_gpu_fan Fixtures.fresh.
Proof.
  apply (no_sensors_no_write FanCurve.default_config Fixtures.no_sensors
           Fixtures.fresh); reflexivity.
Defined.

(** C6. When the control file cannot be written, a cycle leaves the last
    duties and the control file as they were and does not report a change,
    so the next cycle starts from the same last duties. In any cycle the
    last duties change only after [set_fan_speed] succeeded with exactly
    the new duties. *)
Theorem failed_write_keeps_last_duties
    (cfg : FanCurve.config) (h : ThermalMonitor.host)
    (c : FanCurveController.controller) :
  FanController.available (FanCurveController.endpoint c) = false ->
  let c' := snd (FanCurveController.run_once cfg h c) in
  (FanCurveController.last_cpu_fan c' = FanCurveController.last_cpu_fan c
   /\ FanCurveController.last_gpu_fan c' = FanCurveController.last_gpu_fan c
   /\ FanCurveController.endpoint c' = FanCurveController.endpoint c
   /\ fst (FanCurveController.run_once cfg h c) <> Ok true)
  /\ (forall h0 c0,
        let c1 := snd (FanCurveController.run_once cfg h0 c0) in
        (FanCurveController.last_cpu_fan c1
           <> FanCurveController.last_cpu_fan c0
         \/ FanCurveController.last_gpu_fan c1
           <> FanCurveController.last_gpu_fan c0) ->
        FanController.available (FanCurveController.endpoint c0) = true
        /\ exists tl,
             FanCurveController.trace c1
             = (FanCurveController.trace c0
                ++ FanCurveController.SetFanSpeed
                     (FanCurveController.last_cpu_fan c1)
                     (FanCurveController.last_gpu_fan c1) true :: tl)%list).
Proof.
  intros Hfail c'. split.
  - subst c'. CycleFacts.split_cycle h; try congruence.
    all: repeat split; try reflexivity; try discriminate.
    all: now destruct (FanCurveController.endpoint c).
  - intros h0 c0 c1 Hne.
    destruct (CycleFacts.run_once_update_after_write cfg h0 c0 Hne)
      as [Hav [_ Htl]].
    split; [exact Hav | exact Htl].
Qed.

Lemma failed_write_keeps_last_duties_witness :
  let c' := snd (FanCurveController.run_once FanCurve.default_config
                   Fixtures.cpu_only Fixtures.stuck) in
  FanCurveController.last_cpu_fan c' = 0
  /\ FanCurveController.last_gpu_fan c' = 0
  /\ FanCurveController.trace c' = [FanCurveController.SetFanSpeed 50 0 false].
Proof.
  destruct (failed_write_keeps_last_duties FanCurve.default_config
              Fixtures.cpu_only Fixtures.stuck eq_refl)
    as [[Hcpu [Hgpu _]] _].
  split; [exact Hcpu|]. split; [exact Hgpu|]. reflexivity.
Defined.

(** C4. With the default configuration, a CPU sensor at 50 degrees, no GPU
    sensor and a working control file, the first cycle writes the duties
    50 and 0, records them, and then raises [TypeError] while printing the
    GPU temperature [None]; [run_daemon] catches only the interrupt, so the
    exception ends the loop before the next scheduled cycle. With both
    sensors present the same cycle returns [True]. *)
Theorem single_sensor_cycle_raises :
  let cfg := FanCurve.default_config in
  ThermalMonitor.get_cpu_temp Fixtures.cpu_only = Some (50000 # 1000)%Q
  /\ ThermalMonitor.get_gpu_temp Fixtures.cpu_only = None
  /\ FanCurveController.run_once cfg Fixtures.cpu_only Fixtures.fresh
     = (Raise TypeError,
        {| FanCurveController.endpoint :=
             {| FanController.available := true;
                FanController.content := "50,0" |};
           FanCurveController.last_cpu_fan := 50;
           FanCurveController.last_gpu_fan := 0;
           FanCurveController.running := false;
           FanCurveController.trace :=
             [FanCurveController.SetFanSpeed 50 0 true] |})
  /\ fst (FanCurveController.run_daemon cfg
            [FanCurveController.Cycle Fixtures.cpu_only true;
             FanCurveController.Cycle Fixtures.cpu_only true;
             FanCurveController.CtrlC]
            Fixtures.fresh)
     = FanCurveController.Uncaught TypeError
  /\ fst (FanCurveController.run_once cfg Fixtures.both_sensors Fixtures.fresh)
     = Ok true.
Proof. repeat split. Qed.

(** * Further properties of the controller *)

(** ** FanCurve: stability of the computed duty *)

Module StableFacts.

Import FanCurve.

(** The band test, taken again from its own result, gives that result. *)
Lemma apply_hysteresis_again cfg current_fan x :
  apply_hysteresis cfg (apply_hysteresis cfg current_fan x) x
  = apply_hysteresis cfg current_fan x.
Proof.
  unfold apply_hysteresis.
  destruct (Py.Qgtb (Qabs (x - inject_Z current_fan)) _) eqn:Hc.
  - now destruct (Py.Qgtb (Qabs (x - inject_Z (Py.trunc x))) _).
  - now rewrite Hc.
Qed.

Lemma calculate_again cfg temp curve current_fan r :
  calculate_fan_speed cfg temp curve current_fan = Ok r ->
  calculate_fan_speed cfg temp curve r = Ok r.
Proof.
  destruct temp as [t|]; [|now intros [= ->]].
  destruct curve as [|p0 rest]; [discriminate|].
  rewrite !CurveFacts.calculate_fan_speed_cons.
  destruct (Qle_bool t (temp p0)); [trivial|].
  destruct (Spec.reaches t rest); [|trivial].
  intros [= <-]. now rewrite apply_hysteresis_again.
Qed.

End StableFacts.

(** X1. The duty computed for a temperature is stable: computing again
    for the same temperature and curve, with the duty just returned as the
    current duty, returns that duty once more. *)
Theorem calculate_fan_speed_stable
    (cfg : FanCurve.config) (temp : option Q) (curve : list FanCurve.point)
    (current_fan r : Z) :
  FanCurve.calculate_fan_speed cfg temp curve current_fan = Ok r ->
  FanCurve.calculate_fan_speed cfg temp curve r = Ok r.
Proof. apply StableFacts.calculate_again. Qed.

Lemma calculate_fan_speed_stable_witness :
  FanCurve.calculate_fan_speed Fixtures.half_config (Some 40%Q)
    Fixtures.half_curve 32 = Ok 32.
Proof.
  apply (calculate_fan_speed_stable Fixtures.half_config (Some 40%Q)
           Fixtures.half_curve 30 32).
  reflexivity.
Defined.

Module ReportFacts.

Import FanCurve FanCurveController.

(** What a cycle that returns [True] has done. *)
Lemma run_once_true cfg h c :
  fst (run_once cfg h c) = Ok true ->
  exists ct gt a b,
    ThermalMonitor.get_cpu_temp h = Some ct
    /\ ThermalMonitor.get_gpu_temp h = Some gt
    /\ calculate_fan_speed cfg (Some ct) (cpu_curve cfg) (last_cpu_fan c)
       = Ok a
    /\ calculate_fan_speed cfg (Some gt) (gpu_curve cfg) (last_gpu_fan c)
       = Ok b
    /\ (a <> last_cpu_fan c \/ b <> last_gpu_fan c)
    /\ FanController.available (endpoint c) = true
    /\ snd (run_once cfg h c)
       = {| endpoint := {| FanController.available := true;
                           FanController.content :=
                             FanController.fan_value a b |};
            last_cpu_fan := a;
            last_gpu_fan := b;
            running := running c;
            trace := (trace c ++ [SetFanSpeed a b true;
                                  DutyChanged ct gt a b])%list |}.
Proof.
  CycleFacts.split_cycle h; try discriminate.
  intros _. exists ct, gt, v, v0.
  rewrite <- app_assoc. repeat split; try reflexivity; try assumption.
  apply orb_prop in Hif.
  destruct Hif as [H | H]; apply negb_true_iff, Z.eqb_neq in H; auto.
Qed.

End ReportFacts.

(** X2. Steady readings cause one write at most: after a cycle that
    returned [True], a further cycle on the same sensor readings returns
    [False] and leaves the controller, its control file and its trace
    exactly as they were; it does not call [set_fan_speed]. *)
Theorem steady_readings_write_once
    (cfg : FanCurve.config) (h : ThermalMonitor.host)
    (c : FanCurveController.controller) :
  fst (FanCurveController.run_once cfg h c) = Ok true ->
  let c' := snd (FanCurveController.run_once cfg h c) in
  FanCurveController.run_once cfg h c' = (Ok false, c').
Proof.
  intros Hrun c'. subst c'.
  destruct (ReportFacts.run_once_true cfg h c Hrun)
    as [ct [gt [a [b [Hcpu [Hgpu [Ha [Hb [_ [_ Hc']]]]]]]]]].
  rewrite Hc'. unfold FanCurveController.run_once.
  rewrite Hcpu, Hgpu.
  unfold FanCurveController.bind, FanCurveController.gets,
    FanCurveController.lift, FanCurveController.ret.
  cbn -[FanCurve.calculate_fan_speed Z.eqb].
  rewrite (StableFacts.calculate_again _ _ _ _ _ Ha),
          (StableFacts.calculate_again _ _ _ _ _ Hb).
  cbn -[Z.eqb]. now rewrite !Z.eqb_refl.
Qed.

Lemma steady_readings_write_once_witness :
  let c' := snd (FanCurveController.run_once FanCurve.default_config
                   Fixtures.both_sensors Fixtures.fresh) in
  FanCurveController.run_once FanCurve.default_config
    Fixtures.both_sensors c' = (Ok false, c').
Proof.
  apply (steady_readings_write_once FanCurve.default_config
           Fixtures.both_sensors Fixtures.fresh).
  reflexivity.
Defined.

(** ** FanCurveController: what a cycle and the loop keep *)

Module DaemonFacts.

Import FanCurve FanCurveController.

Local Abbreviation cycle cfg h up :=
  (bind (with_availability up) (fun _ => run_once cfg h)).

(** [calculate_fan_speed] raises only on an empty curve with a reading. *)
Lemma calculate_raises cfg temp curve current_fan e :
  calculate_fan_speed cfg temp curve current_fan = Raise e <->
  e = IndexError /\ temp <> None /\ curve = [].
Proof.
  destruct temp as [t|]; [|split; [discriminate | intros [_ [H _]]; now elim H]].
  destruct curve as [|p0 rest].
  - cbn. split; [intros [= <-]; repeat split; discriminate|].
    now intros [-> _].
  - rewrite CurveFacts.calculate_fan_speed_cons.
    split; [discriminate | intros [_ [_ H]]; discriminate].
Qed.

(** A duty computed from a curve of percentages and a current percentage
    is a percentage. *)
Lemma calculate_duty_ok cfg temp curve current_fan v :
  Spec.duties_ok curve = true ->
  Spec.duty_ok current_fan = true ->
  calculate_fan_speed cfg temp curve current_fan = Ok v ->
  Spec.duty_ok v = true.
Proof.
  intros Hduties Hcur.
  assert (Hok : forall d, 0 <= d <= 100 -> Spec.duty_ok d = true)
    by (intros d Hd; unfold Spec.duty_ok; lia).
  destruct temp as [t|]; [|now intros [= <-]].
  destruct curve as [|p0 rest]; [discriminate|].
  rewrite CurveFacts.calculate_fan_speed_cons.
  destruct (Qle_bool t (temp p0)) eqn:H0.
  - intros [= <-]. apply Hok, (RangeFacts.duty_of_point _ _ Hduties). now left.
  - apply CurveFacts.Qle_bool_false in H0.
    destruct (Spec.reaches t rest) eqn:Hr.
    + unfold apply_hysteresis.
      destruct (Py.Qgtb _ _); [|now intros [= <-]].
      intros [= <-].
      destruct (RangeFacts.target_between t rest p0 H0 Hr)
        as [pre [a [b [post [Heq [Hlo Hhi]]]]]].
      pose proof (CurveFacts.trunc_between _ _ _ Hlo Hhi) as Hv.
      assert (Ha : 0 <= fan a <= 100).
      { apply (RangeFacts.duty_of_point _ _ Hduties). rewrite Heq.
        apply in_or_app. right. now left. }
      assert (Hb : 0 <= fan b <= 100).
      { apply (RangeFacts.duty_of_point _ _ Hduties). rewrite Heq.
        apply in_or_app. right. right. now left. }
      apply Hok. lia.
    + intros [= <-].
      apply Hok, (RangeFacts.duty_of_point _ _ Hduties), RangeFacts.last_In.
Qed.

(** What one cycle can do to the controller: it appends events; every
    call of [set_fan_speed] carries the two computed duties; the last
    duties stay or become the two computed duties; the text of the control
    file stays or becomes the text of the computed duties, together with
    the last duties. *)
Lemma run_once_effects cfg h c :
  let c' := snd (run_once cfg h c) in
  exists events,
    trace c' = (trace c ++ events)%list
    /\ running c' = running c
    /\ (forall a b ok, In (SetFanSpeed a b ok) events ->
          calculate_fan_speed cfg (ThermalMonitor.get_cpu_temp h)
            (cpu_curve cfg) (last_cpu_fan c) = Ok a
          /\ calculate_fan_speed cfg (ThermalMonitor.get_gpu_temp h)
               (gpu_curve cfg) (last_gpu_fan c) = Ok b)
    /\ ((last_cpu_fan c' = last_cpu_fan c
         /\ last_gpu_fan c' = last_gpu_fan c
         /\ FanController.content (endpoint c')
            = FanController.content (endpoint c))
        \/ (calculate_fan_speed cfg (ThermalMonitor.get_cpu_temp h)
              (cpu_curve cfg) (last_cpu_fan c) = Ok (last_cpu_fan c')
            /\ calculate_fan_speed cfg (ThermalMonitor.get_gpu_temp h)
                 (gpu_curve cfg) (last_gpu_fan c) = Ok (last_gpu_fan c')
            /\ FanController.content (endpoint c')
               = FanController.fan_value (last_cpu_fan c')
                   (last_gpu_fan c'))).
Proof.
  CycleFacts.split_cycle h.
  all: try rewrite <- !app_assoc.
  all: try (exists []; rewrite app_nil_r; repeat split;
            [contradiction | contradiction | now left]).
  all: eexists; split; [reflexivity|]; split; [reflexivity|]; split.
  all: try (intros a b ok [[= <- <- <-] | Hin]; [now split|];
            try destruct Hin as [[=] | []]; try contradiction).
  all: try (intros a b ok [[=] | []]).
  all: try (right; repeat split; assumption).
  all: left; repeat split; now destruct (endpoint c).
Qed.

(** Changing the availability of the control file changes nothing else. *)
Lemma with_availability_keeps up c :
  let c' := snd (with_availability up c) in
  trace c' = trace c /\ running c' = running c
  /\ last_cpu_fan c' = last_cpu_fan c /\ last_gpu_fan c' = last_gpu_fan c
  /\ FanController.content (endpoint c') = FanController.content (endpoint c).
Proof. cbn. auto. Qed.

Lemma cycle_unfold cfg h up c :
  cycle cfg h up c = run_once cfg h (snd (with_availability up c)).
Proof. reflexivity. Qed.

(** A property kept by every cycle and by the flag [running] is kept by
    the loop, however it ends. *)
Lemma loop_keeps (P : controller -> Prop) cfg :
  (forall h up c, P c -> P (snd (cycle cfg h up c))) ->
  (forall b c, P c -> P (snd (set_running b c))) ->
  forall schedule c, P c -> P (snd (run_daemon cfg schedule c)).
Proof.
  intros Hcycle Hflag schedule c Hc. unfold run_daemon.
  assert (H1 : P (snd (set_running true c))) by now apply Hflag.
  revert H1. generalize (snd (set_running true c)). clear c Hc.
  induction schedule as [|[h up|] schedule IH]; intros c Hc;
    cbn [loop].
  - exact Hc.
  - specialize (Hcycle h up c Hc).
    destruct (cycle cfg h up c) as [[b|e] c1]; cbn [snd] in *; auto.
    destruct (PyTime.sleep (get_update_interval cfg)); auto.
  - now apply Hflag.
Qed.

End DaemonFacts.



(** X4. The control file follows the last duties: if the file holds the
    text of the last duties when the daemon starts, it holds the text of
    the last duties after any schedule of cycles, whether writes failed or
    an exception ended the loop, and reading it back yields the last
    duties. *)
Theorem control_file_tracks_last_duties
    (cfg : FanCurve.config) (schedule : list FanCurveController.tick)
    (c : FanCurveController.controller) :
  FanController.content (FanCurveController.endpoint c)
  = FanController.fan_value (FanCurveController.last_cpu_fan c)
      (FanCurveController.last_gpu_fan c) ->
  let c' := snd (FanCurveController.run_daemon cfg schedule c) in
  FanController.content (FanCurveController.endpoint c')
  = FanController.fan_value (FanCurveController.last_cpu_fan c')
      (FanCurveController.last_gpu_fan c')
  /\ FanController.parse_speeds
       (FanController.content (FanCurveController.endpoint c'))
     = Ok (Some (FanCurveController.last_cpu_fan c',
                 FanCurveController.last_gpu_fan c')).
Proof.
  intros Hsync c'.
  assert (H : FanController.content (FanCurveController.endpoint c')
              = FanController.fan_value (FanCurveController.last_cpu_fan c')
                  (FanCurveController.last_gpu_fan c')).
  { subst c'.
    apply (DaemonFacts.loop_keeps
             (fun c0 =>
                FanController.content (FanCurveController.endpoint c0)
                = FanController.fan_value (FanCurveController.last_cpu_fan c0)
                    (FanCurveController.last_gpu_fan c0))).
    - intros h up c0 H0. rewrite DaemonFacts.cycle_unfold.
      destruct (DaemonFacts.with_availability_keeps up c0)
        as [_ [_ [Ha [Hb Hc]]]].
      set (c1 := snd (FanCurveController.with_availability up c0)) in *.
      destruct (DaemonFacts.run_once_effects cfg h c1)
        as [events [_ [_ [_ Hlast]]]].
      destruct Hlast as [[E1 [E2 E3]] | [_ [_ E]]]; [|exact E].
      now rewrite E1, E2, E3, Ha, Hb, Hc.
    - intros b c0 H0. exact H0.
    - exact Hsync. }
  split; [exact H|]. rewrite H. apply ActuatorFacts.parse_fan_value.
Qed.

Lemma control_file_tracks_last_duties_witness :
  let c' := snd (FanCurveController.run_daemon FanCurve.default_config
                   [FanCurveController.Cycle Fixtures.both_sensors true]
                   Fixtures.fresh) in
  FanController.parse_speeds
    (FanController.content (FanCurveController.endpoint c'))
  = Ok (Some (FanCurveController.last_cpu_fan c',
              FanCurveController.last_gpu_fan c')).
Proof.
  apply (control_file_tracks_last_duties FanCurve.default_config
           [FanCurveController.Cycle Fixtures.both_sensors true]
           Fixtures.fresh).
  reflexivity.
Defined.

(** X5. A cycle that changes the last duties leaves their text in the
    control file: reading the file back right after it returns exactly the
    new last duties, also when the cycle then ends in an exception. *)
Theorem changed_duties_can_be_read_back
    (cfg : FanCurve.config) (h : ThermalMonitor.host)
    (c : FanCurveController.controller) :
  let c' := snd (FanCurveController.run_once cfg h c) in
  (FanCurveController.last_cpu_fan c' <> FanCurveController.last_cpu_fan c
   \/ FanCurveController.last_gpu_fan c' <> FanCurveController.last_gpu_fan c) ->
  FanController.get_fan_speed (FanCurveController.endpoint c')
  = Ok (Some (FanCurveController.last_cpu_fan c',
              FanCurveController.last_gpu_fan c')).
Proof.
  intros c' Hne. revert Hne. subst c'.
  CycleFacts.split_cycle h; intros [Hne | Hne]; try congruence.
  all: apply ActuatorFacts.parse_fan_value.
Qed.

Lemma changed_duties_can_be_read_back_witness :
  FanController.get_fan_speed
    (FanCurveController.endpoint
       (snd (FanCurveController.run_once FanCurve.default_config
               Fixtures.cpu_only Fixtures.fresh)))
  = Ok (Some (50, 0)).
Proof.
  apply (changed_duties_can_be_read_back FanCurve.default_config
           Fixtures.cpu_only Fixtures.fresh).
  left. discriminate.
Defined.

Module ExceptionFacts.

Import FanCurve FanCurveController.

Lemma calculate_empty cfg t current_fan :
  calculate_fan_speed cfg (Some t) [] current_fan = Raise IndexError.
Proof. reflexivity. Qed.

(** How [calculate_fan_speed] and the status line make a cycle raise, with
    what the cycle had done by then. Sensor reads that raise and a
    configuration without its curves are outside this layer. *)
Lemma run_once_raise_cases cfg h c e :
  fst (run_once cfg h c) = Raise e ->
  (e = IndexError
   /\ snd (run_once cfg h c) = c
   /\ ((ThermalMonitor.get_cpu_temp h <> None /\ cpu_curve cfg = [])
       \/ (ThermalMonitor.get_gpu_temp h <> None /\ gpu_curve cfg = [])))
  \/ (e = TypeError
      /\ (ThermalMonitor.get_cpu_temp h = None
          \/ ThermalMonitor.get_gpu_temp h = None)
      /\ exists a b,
           trace (snd (run_once cfg h c))
           = (trace c ++ [SetFanSpeed a b true])%list
           /\ last_cpu_fan (snd (run_once cfg h c)) = a
           /\ last_gpu_fan (snd (run_once cfg h c)) = b).
Proof.
  CycleFacts.split_cycle h; intros Hr; try discriminate Hr;
    injection Hr as <-.
  all: try (apply DaemonFacts.calculate_raises in Hcalc0;
            destruct Hcalc0 as [-> [Hsome Hnil]];
            first [ now elim Hsome
                  | left; split; [reflexivity|]; split; [reflexivity|];
                    right; split; [discriminate | exact Hnil] ]).
  all: try (apply DaemonFacts.calculate_raises in Hcalc;
            destruct Hcalc as [-> [Hsome Hnil]];
            first [ now elim Hsome
                  | left; split; [reflexivity|]; split; [reflexivity|];
                    left; split; [discriminate | exact Hnil] ]).
  all: right; split; [reflexivity|]; split; [auto|];
    exists v, v0; repeat split.
Qed.

Lemma run_once_empty_curve cfg h c :
  (ThermalMonitor.get_cpu_temp h <> None /\ cpu_curve cfg = [])
  \/ (ThermalMonitor.get_gpu_temp h <> None /\ gpu_curve cfg = []) ->
  run_once cfg h c = (Raise IndexError, c).
Proof.
  intros Hcond. unfold run_once.
  destruct (ThermalMonitor.get_cpu_temp h) as [ct|] eqn:Hcpu,
           (ThermalMonitor.get_gpu_temp h) as [gt|] eqn:Hgpu;
    CycleFacts.step_cycle; cbn -[calculate_fan_speed Z.eqb].
  - destruct (calculate_fan_speed cfg (Some ct) _ _) as [a|ea] eqn:Ha.
    + destruct Hcond as [[_ Hnil] | [_ Hnil]].
      * rewrite Hnil in Ha. discriminate Ha.
      * rewrite Hnil. reflexivity.
    + apply DaemonFacts.calculate_raises in Ha. now destruct Ha as [-> _].
  - destruct Hcond as [[_ Hnil] | [Hsome _]]; [|now elim Hsome].
    rewrite Hnil. reflexivity.
  - destruct Hcond as [[Hsome _] | [_ Hnil]]; [now elim Hsome|].
    rewrite Hnil. reflexivity.
  - destruct Hcond as [[Hsome _] | [Hsome _]]; now elim Hsome.
Qed.

End ExceptionFacts.


Module InterruptFacts.

Import FanCurve FanCurveController.

(** A cycle with both readings, or with none, returns. *)
Lemma paired_cycle_returns cfg h c :
  cpu_curve cfg <> [] -> gpu_curve cfg <> [] ->
  (ThermalMonitor.get_cpu_temp h = None
   <-> ThermalMonitor.get_gpu_temp h = None) ->
  exists b, fst (run_once cfg h c) = Ok b.
Proof.
  intros Hcc Hgc Hpair.
  destruct (ThermalMonitor.get_cpu_temp h) as [ct|] eqn:Hcpu,
           (ThermalMonitor.get_gpu_temp h) as [gt|] eqn:Hgpu.
  - eapply CycleFacts.run_once_returns; eauto.
  - destruct Hpair as [_ H]. discriminate (H eq_refl).
  - destruct Hpair as [H _]. discriminate (H eq_refl).
  - exists false. unfold run_once. now rewrite Hcpu, Hgpu.
Qed.

(** The delays [time.sleep] accepts. *)
Lemma sleep_returns seconds :
  PyTime.sleep seconds = Ok tt <-> 0 <= seconds <= 9223372036.
Proof.
  unfold PyTime.sleep.
  destruct (seconds * 1000000000 <? - 2 ^ 63) eqn:Hlo;
    destruct (2 ^ 63 - 1 <? seconds * 1000000000) eqn:Hhi;
    destruct (seconds <? 0) eqn:Hneg; cbn [orb];
    split; intros H; try discriminate H; try reflexivity; lia.
Qed.

Lemma sleep_negative seconds :
  - 9223372036 <= seconds < 0 -> PyTime.sleep seconds = Raise ValueError.
Proof.
  intros H. unfold PyTime.sleep.
  destruct (seconds * 1000000000 <? - 2 ^ 63) eqn:Hlo;
    destruct (2 ^ 63 - 1 <? seconds * 1000000000) eqn:Hhi;
    destruct (seconds <? 0) eqn:Hneg; cbn [orb]; try reflexivity; lia.
Qed.

Lemma loop_until_interrupt cfg later before : forall c,
  cpu_curve cfg <> [] -> gpu_curve cfg <> [] ->
  0 <= get_update_interval cfg <= 9223372036 ->
  (forall h up, In (Cycle h up) before ->
     (ThermalMonitor.get_cpu_temp h = None
      <-> ThermalMonitor.get_gpu_temp h = None)) ->
  fst (loop cfg (before ++ CtrlC :: later) c) = Interrupted
  /\ running (snd (loop cfg (before ++ CtrlC :: later) c)) = false
  /\ loop cfg (before ++ CtrlC :: later) c = loop cfg (before ++ [CtrlC]) c.
Proof.
  induction before as [|[h up|] before IH]; intros c Hcc Hgc Hint Hpair.
  - cbn. auto.
  - cbn [app loop].
    destruct (paired_cycle_returns cfg h (snd (with_availability up c))
                Hcc Hgc (Hpair h up (or_introl eq_refl))) as [b Hb].
    change ((bind (with_availability up) (fun _ => run_once cfg h)) c)
      with (run_once cfg h (snd (with_availability up c))).
    destruct (run_once cfg h (snd (with_availability up c))) as [r c1].
    cbn [fst] in Hb. subst r.
    rewrite (proj2 (sleep_returns _) Hint).
    apply IH; auto. intros h0 up0 Hin. apply (Hpair h0 up0). now right.
  - cbn. auto.
Qed.

(** A delay that [time.sleep] refuses ends the loop after the first cycle
    that returns. *)
Lemma loop_refused_delay cfg h up schedule c b e :
  fst (run_once cfg h (snd (with_availability up c))) = Ok b ->
  PyTime.sleep (get_update_interval cfg) = Raise e ->
  loop cfg (Cycle h up :: schedule) c
  = (Uncaught e, snd (run_once cfg h (snd (with_availability up c)))).
Proof.
  intros Hb Hs. cbn [loop].
  change ((bind (with_availability up) (fun _ => run_once cfg h)) c)
    with (run_once cfg h (snd (with_availability up c))).
  destruct (run_once cfg h (snd (with_availability up c))) as [r c1].
  cbn [fst snd] in *. subst r. now rewrite Hs.
Qed.

End InterruptFacts.



(** ** FanCurve: the duty as a function of the temperature *)

Module MonotoneFacts.

Import FanCurve.

Lemma trunc_mono x y : (x <= y)%Q -> Py.trunc x <= Py.trunc y.
Proof.
  intros Hxy. unfold Py.trunc.
  destruct (Qle_bool 0 x) eqn:Hx, (Qle_bool 0 y) eqn:Hy.
  - now apply Qfloor_resp_le.
  - apply Qle_bool_iff in Hx. apply CurveFacts.Qle_bool_false in Hy.
    exfalso. lra.
  - apply CurveFacts.Qle_bool_false in Hx. apply Qle_bool_iff in Hy.
    apply Z.le_trans with 0.
    + rewrite <- (Qceiling_Z 0). apply Qceiling_resp_le.
      change (inject_Z 0) with 0%Q. lra.
    + rewrite <- (Qfloor_Z 0). now apply Qfloor_resp_le.
  - now apply Qceiling_resp_le.
Qed.

Lemma Qabs_gt_cases x b : (b < Qabs x)%Q -> (b < x)%Q \/ (b < - x)%Q.
Proof. apply Qabs_case; auto. Qed.

Lemma Qabs_le_cases x b : (Qabs x <= b)%Q -> (- b <= x)%Q /\ (x <= b)%Q.
Proof. intros H. now apply Qabs_Qle_condition. Qed.

(** With a band that is not negative, the band test is monotone in the
    target. *)
Lemma apply_hysteresis_mono cfg current_fan x y :
  0 <= get_hysteresis cfg -> (x <= y)%Q ->
  apply_hysteresis cfg current_fan x <= apply_hysteresis cfg current_fan y.
Proof.
  intros Hband Hxy. unfold apply_hysteresis.
  rewrite Zle_Qle in Hband. change (inject_Z 0) with 0%Q in Hband.
  destruct (Py.Qgtb (Qabs (x - _)) _) eqn:Gx,
           (Py.Qgtb (Qabs (y - _)) _) eqn:Gy.
  - now apply trunc_mono.
  - apply ThermalFacts.Qgtb_true, Qabs_gt_cases in Gx.
    apply ThermalFacts.Qgtb_false, Qabs_le_cases in Gy.
    apply Z.le_trans with (Py.trunc (inject_Z current_fan));
      [|rewrite CurveFacts.trunc_inject; lia].
    apply trunc_mono. destruct Gx; lra.
  - apply ThermalFacts.Qgtb_false, Qabs_le_cases in Gx.
    apply ThermalFacts.Qgtb_true, Qabs_gt_cases in Gy.
    apply Z.le_trans with (Py.trunc (inject_Z current_fan));
      [rewrite CurveFacts.trunc_inject; lia|].
    apply trunc_mono. destruct Gy; lra.
  - lia.
Qed.

(** On one segment with duties that do not fall, the interpolation does
    not fall either. *)
Lemma segment_mono (a b : Z) (lo hi t1 t2 : Q) :
  a <= b -> (lo < t1)%Q -> (t1 <= t2)%Q -> (t2 <= hi)%Q ->
  (inject_Z a + (t1 - lo) / (hi - lo) * inject_Z (b - a)
   <= inject_Z a + (t2 - lo) / (hi - lo) * inject_Z (b - a))%Q.
Proof.
  intros Hab Hlo H12 Hhi.
  assert (Hd : (0 < hi - lo)%Q) by lra.
  assert (HX : (0 <= inject_Z (b - a))%Q).
  { change 0%Q with (inject_Z 0). rewrite <- Zle_Qle. lia. }
  assert (Hf : ((t1 - lo) / (hi - lo) <= (t2 - lo) / (hi - lo))%Q).
  { apply Qle_shift_div_l; [exact Hd|].
    setoid_replace ((t1 - lo) / (hi - lo) * (hi - lo))%Q with (t1 - lo)%Q
      by (field; lra).
    lra. }
  set (f1 := ((t1 - lo) / (hi - lo))%Q) in *.
  set (f2 := ((t2 - lo) / (hi - lo))%Q) in *.
  clearbody f1 f2. set (X := inject_Z (b - a)) in *. clearbody X.
  nra.
Qed.

Section Targets.

Variables t1 t2 : Q.
Hypothesis H12 : (t1 <= t2)%Q.

(** Past a point below the temperature, the target is at least that
    point's duty. *)
Lemma target_above_lower t rest : forall prev,
  CurveShape.rising_from prev rest = true ->
  (temp prev < t)%Q ->
  (inject_Z (fan prev) <= Spec.target_above prev rest t)%Q.
Proof.
  induction rest as [|p rest' IH]; intros prev Hrise Hprev;
    cbn [Spec.target_above]; [apply Qle_refl|].
  cbn [CurveShape.rising_from] in Hrise.
  apply andb_prop in Hrise. destruct Hrise as [Hab Hrise].
  apply Z.leb_le in Hab.
  assert (HabQ : (inject_Z (fan prev) <= inject_Z (fan p))%Q)
    by now rewrite <- Zle_Qle.
  destruct (Qle_bool t (temp p)) eqn:Hp.
  - apply Qle_bool_iff in Hp.
    destruct (Qeq_bool (temp p) (temp prev)); [exact HabQ|].
    destruct (RangeFacts.between_endpoints (fan prev) (fan p)
                (t - temp prev) (temp p - temp prev)) as [Hlo _]; try lra.
    now rewrite Z.min_l in Hlo.
  - apply CurveFacts.Qle_bool_false in Hp.
    eapply Qle_trans; [exact HabQ | now apply IH].
Qed.

Lemma target_above_mono rest : forall prev,
  CurveShape.rising_from prev rest = true ->
  (temp prev < t1)%Q ->
  (Spec.target_above prev rest t1 <= Spec.target_above prev rest t2)%Q.
Proof.
  induction rest as [|p rest' IH]; intros prev Hrise Hprev;
    cbn [Spec.target_above]; [apply Qle_refl|].
  cbn [CurveShape.rising_from] in Hrise.
  apply andb_prop in Hrise. destruct Hrise as [Hab Hrise].
  apply Z.leb_le in Hab.
  destruct (Qle_bool t2 (temp p)) eqn:Hp2.
  - apply Qle_bool_iff in Hp2.
    replace (Qle_bool t1 (temp p)) with true
      by (symmetry; apply Qle_bool_iff; lra).
    destruct (Qeq_bool (temp p) (temp prev)); [apply Qle_refl|].
    now apply segment_mono.
  - apply CurveFacts.Qle_bool_false in Hp2.
    destruct (Qle_bool t1 (temp p)) eqn:Hp1.
    + apply Qle_bool_iff in Hp1.
      apply Qle_trans with (inject_Z (fan p)).
      * destruct (Qeq_bool (temp p) (temp prev)); [apply Qle_refl|].
        destruct (RangeFacts.between_endpoints (fan prev) (fan p)
                    (t1 - temp prev) (temp p - temp prev)) as [_ Hhi];
          try lra.
        now rewrite Z.max_r in Hhi.
      * now apply target_above_lower.
    + apply CurveFacts.Qle_bool_false in Hp1. now apply IH.
Qed.

End Targets.

(** A target outside the band moves the duty by at least the band. *)
Lemma step_at_least_band x (current_fan band : Z) :
  (inject_Z band < Qabs (x - inject_Z current_fan))%Q ->
  band <= Z.abs (Py.trunc x - current_fan).
Proof.
  intros Hb. apply Qabs_gt_cases in Hb.
  pose proof (CurveFacts.trunc_near x) as Hnear.
  set (T := Py.trunc x) in *.
  destruct Hb as [Hb | Hb].
  - assert (H : (inject_Z (current_fan + band - 1) < inject_Z T)%Q).
    { unfold Z.sub. rewrite !inject_Z_plus, inject_Z_opp.
      change (inject_Z 1) with 1%Q.
      destruct Hnear as [[_ [Hlo Hhi]] | [_ [Hlo Hhi]]]; lra. }
    rewrite <- Zlt_Qlt in H. lia.
  - assert (H : (inject_Z T < inject_Z (current_fan - band + 1))%Q).
    { unfold Z.sub. rewrite !inject_Z_plus, inject_Z_opp.
      change (inject_Z 1) with 1%Q.
      destruct Hnear as [[_ [Hlo Hhi]] | [_ [Hlo Hhi]]]; lra. }
    rewrite <- Zlt_Qlt in H. lia.
Qed.

End MonotoneFacts.





(** ** Text around the numbers in sysfs files *)

Module PaddingFacts.

Import Py Chars PyFacts.

Lemma app_assoc_str s1 s2 s3 : ((s1 ++ s2) ++ s3 = s1 ++ (s2 ++ s3))%string.
Proof. induction s1 as [|c s1 IH]; cbn; [reflexivity | now rewrite IH]. Qed.

Lemma lstrip_spaces w s :
  all_chars is_space w = true -> lstrip (w ++ s) = lstrip s.
Proof.
  induction w as [|c w IH]; cbn; [reflexivity|].
  intros [Hc Hw]%andb_prop. rewrite Hc. now apply IH.
Qed.

Lemma rstrip_spaces s w :
  all_chars is_space w = true -> rstrip (s ++ w) = rstrip s.
Proof.
  intros Hw. induction s as [|c s IH]; cbn.
  - induction w as [|d w IHw]; cbn; [reflexivity|].
    cbn in Hw. apply andb_prop in Hw. destruct Hw as [Hd Hw].
    now rewrite (IHw Hw), Hd.
  - now rewrite IH.
Qed.

(** Whitespace around a text without whitespace is stripped away. *)
Lemma strip_padding w1 s w2 :
  all_chars is_space w1 = true -> all_chars is_space w2 = true ->
  all_chars solid s = true ->
  strip (w1 ++ s ++ w2) = s.
Proof.
  intros H1 H2 Hs. unfold strip. rewrite (lstrip_spaces _ _ H1).
  destruct s as [|c s]; cbn [append].
  - clear H1. induction w2 as [|d w2 IH]; cbn; [reflexivity|].
    cbn in H2. apply andb_prop in H2. destruct H2 as [Hd H2].
    rewrite Hd. now apply IH.
  - cbn in Hs. apply andb_prop in Hs. destruct Hs as [Hc Hs].
    unfold solid in Hc. apply negb_true_iff in Hc.
    cbn [lstrip]. rewrite Hc.
    change (String c (s ++ w2)) with (String c s ++ w2)%string.
    rewrite (rstrip_spaces _ _ H2). apply rstrip_solid.
    cbn. unfold solid at 1. now rewrite Hc, Hs.
Qed.

(** A character that is not whitespace shields what precedes it. *)
Lemma rstrip_shield s c r :
  solid c = true -> rstrip (s ++ String c r) = (s ++ String c (rstrip r))%string.
Proof.
  intros Hc. unfold solid in Hc. apply negb_true_iff in Hc.
  induction s as [|d s IH]; cbn.
  - destruct (rstrip r); [now rewrite Hc | reflexivity].
  - rewrite IH. destruct s; reflexivity.
Qed.

Lemma str_of_int_first n :
  exists c s, str_of_int n = String c s /\ solid c = true.
Proof.
  pose proof (str_of_int_numeral n) as Hn.
  assert (Hne : str_of_int n <> EmptyString).
  { unfold str_of_int. destruct n as [|p|p]; cbn; [discriminate | | discriminate].
    destruct (Pos.to_uint p); discriminate. }
  destruct (str_of_int n) as [|c s]; [now elim Hne|].
  cbn in Hn. apply andb_prop in Hn. destruct Hn as [Hc _].
  exists c, s. split; [reflexivity | now apply numeral_solid].
Qed.

Lemma str_of_int_solid n : all_chars solid (str_of_int n) = true.
Proof.
  apply (all_chars_weaken numeral); [apply numeral_solid|].
  apply str_of_int_numeral.
Qed.

Lemma str_of_int_no_comma n : all_chars not_comma (str_of_int n) = true.
Proof.
  apply (all_chars_weaken numeral); [apply numeral_not_comma|].
  apply str_of_int_numeral.
Qed.

(** A text with a comma splits into two fields at least. *)
Lemma split_comma_two s :
  all_chars not_comma s = false ->
  exists f0 f1 fields, split_comma s = f0 :: f1 :: fields.
Proof.
  induction s as [|c s IH]; cbn; [discriminate|].
  unfold not_comma at 1. destruct (Ascii.eqb c ","); cbn.
  - intros _. pose proof (ActuatorFacts.split_comma_nonempty s) as Hne.
    destruct (split_comma s) as [|f fs]; [now elim Hne | eauto].
  - intros Hs. destruct (IH Hs) as [f0 [f1 [fields ->]]]. eauto.
Qed.

End PaddingFacts.



(** X11. Reading the control file back tolerates what surrounds the two
    duties: whitespace before and after the text written by
    [set_fan_speed], and any further comma-separated fields after the
    second one, are ignored. *)
Theorem get_fan_speed_ignores_surroundings
    (cpu gpu : Z) (w1 w2 more : string) :
  Chars.all_chars Py.is_space w1 = true ->
  Chars.all_chars Py.is_space w2 = true ->
  FanController.get_fan_speed
    {| FanController.available := true;
       FanController.content := w1 ++ FanController.fan_value cpu gpu ++ w2 |}
  = Ok (Some (cpu, gpu))
  /\ FanController.get_fan_speed
       {| FanController.available := true;
          FanController.content :=
            FanController.fan_value cpu gpu ++ "," ++ more |}
     = Ok (Some (cpu, gpu)).
Proof.
  intros H1 H2. unfold FanController.get_fan_speed. cbn [FanController.available
    FanController.content]. split.
  - unfold FanController.parse_speeds.
    rewrite (PaddingFacts.strip_padding _ _ _ H1 H2
               (ActuatorFacts.fan_value_solid cpu gpu)).
    rewrite ActuatorFacts.split_fan_value. cbn [index nth_error rbind].
    now rewrite !PyFacts.int_of_str_of_int.
  - unfold FanController.parse_speeds, FanController.fan_value.
    cbn [append]. rewrite !PaddingFacts.app_assoc_str. cbn [append].
    destruct (PaddingFacts.str_of_int_first cpu) as [c0 [s0 [E0 Hc0]]].
    assert (Hstrip :
      Py.strip (Py.str_of_int cpu
                ++ String "," (Py.str_of_int gpu ++ String "," more))
      = (Py.str_of_int cpu
         ++ String "," (Py.str_of_int gpu ++ String "," (Py.rstrip more)))%string).
    { unfold Py.strip.
      replace (Py.lstrip (Py.str_of_int cpu
                 ++ String "," (Py.str_of_int gpu ++ String "," more)))
        with (Py.str_of_int cpu
                 ++ String "," (Py.str_of_int gpu ++ String "," more))%string.
      - rewrite PaddingFacts.rstrip_shield by reflexivity.
        now rewrite PaddingFacts.rstrip_shield by reflexivity.
      - rewrite E0. cbn [append Py.lstrip].
        unfold Chars.solid in Hc0. apply negb_true_iff in Hc0.
        now rewrite Hc0. }
    rewrite Hstrip.
    rewrite PyFacts.split_comma_app by apply PaddingFacts.str_of_int_no_comma.
    rewrite PyFacts.split_comma_app by apply PaddingFacts.str_of_int_no_comma.
    cbn [index nth_error rbind].
    now rewrite !PyFacts.int_of_str_of_int.
Qed.

Lemma get_fan_speed_ignores_surroundings_witness :
  FanController.get_fan_speed
    {| FanController.available := true;
       FanController.content :=
         "" ++ FanController.fan_value 41 67 ++ String "010" "" |}
  = Ok (Some (41, 67)).
Proof.
  apply (get_fan_speed_ignores_surroundings 41 67 "" (String "010" "") "");
    reflexivity.
Defined.

(** X12. [get_fan_speed] raises exactly on a text without comma that is an
    integer: then [speeds[1]] fails with [IndexError]. A text with at least
    one comma is always answered, by a pair or by [None]. *)
Theorem get_fan_speed_raises_iff (text : string) :
  let ep := {| FanController.available := true;
               FanController.content := text |} in
  (FanController.get_fan_speed ep = Raise IndexError <->
   Chars.all_chars Chars.not_comma (Py.strip text) = true
   /\ Py.int_of_str (Py.strip text) <> None)
  /\ (forall e, FanController.get_fan_speed ep = Raise e -> e = IndexError)
  /\ (Chars.all_chars Chars.not_comma (Py.strip text) = false ->
      exists answer, FanController.get_fan_speed ep = Ok answer).
Proof.
  intros ep. subst ep. unfold FanController.get_fan_speed.
  cbn [FanController.available FanController.content].
  split; [split|split].
  - intros Hr. apply ActuatorFacts.parse_speeds_raises in Hr.
    destruct Hr as [_ [s0 [n [Hs Hn]]]].
    destruct (Chars.all_chars Chars.not_comma (Py.strip text)) eqn:Hc.
    + rewrite (PyFacts.split_comma_field _ Hc) in Hs.
      injection Hs as <-. split; [reflexivity | congruence].
    + destruct (PaddingFacts.split_comma_two _ Hc) as [f0 [f1 [fs E]]].
      rewrite E in Hs. discriminate Hs.
  - intros [Hc Hn].
    destruct (Py.int_of_str (Py.strip text)) as [n|] eqn:E; [|now elim Hn].
    exact (ActuatorFacts.parse_single_field text n Hc E).
  - intros e Hr. now apply ActuatorFacts.parse_speeds_raises in Hr.
  - intros Hc.
    destruct (FanController.parse_speeds text) as [answer|e] eqn:E; [eauto|].
    apply ActuatorFacts.parse_speeds_raises in E.
    destruct E as [_ [s0 [n [Hs _]]]].
    destruct (PaddingFacts.split_comma_two _ Hc) as [f0 [f1 [fs E]]].
    rewrite E in Hs. discriminate Hs.
Qed.

(** ** ThermalMonitor: which files are read, and in what order *)

Module ZoneFacts.

Import ThermalMonitor.

(** Where the zones of a list of patterns come from. *)
Lemma expand_In h patterns zone :
  In zone (expand h patterns) <->
  exists pattern,
    In pattern patterns
    /\ ((has_star pattern = true /\ In zone (glob h pattern))
        \/ (has_star pattern = false /\ zone = pattern
            /\ path_exists h pattern = true)).
Proof.
  induction patterns as [|p ps IH]; cbn [expand].
  - split; [contradiction | now intros [? [[] _]]].
  - destruct (has_star p) eqn:Hs.
    + rewrite in_app_iff, IH. split.
      * intros [Hin | [q [Hq Hz]]].
        -- exists p. split; [now left | left; auto].
        -- exists q. split; [now right | exact Hz].
      * intros [q [[<- | Hq] Hz]].
        -- destruct Hz as [[_ Hz] | [Hz _]]; [now left | congruence].
        -- right. eauto.
    + destruct (path_exists h p) eqn:He.
      * cbn [In]. rewrite IH. split.
        -- intros [<- | [q [Hq Hz]]].
           ++ exists p. split; [now left | right; auto].
           ++ exists q. split; [now right | exact Hz].
        -- intros [q [[<- | Hq] Hz]].
           ++ destruct Hz as [[Hz _] | [_ [Hz _]]]; [congruence | now left].
           ++ right. eauto.
      * rewrite IH. split.
        -- intros [q [Hq Hz]]. exists q. split; [now right | exact Hz].
        -- intros [q [[<- | Hq] Hz]]; [|eauto].
           destruct Hz as [[Hz _] | [_ [_ Hz]]]; congruence.
Qed.

End ZoneFacts.

(** X13. Which files a domain reads. The CPU zones are exactly those of the
    four fixed paths that exist; [glob] plays no part in them. The GPU
    zones are exactly the matches of the two GPU patterns; whether a path
    exists plays no part in them. *)
Theorem thermal_zones_found (h : ThermalMonitor.host) (zone : string) :
  (In zone (fst (ThermalMonitor.find_thermal_zones h)) <->
   In zone ThermalMonitor.cpu_thermal_paths
   /\ ThermalMonitor.path_exists h zone = true)
  /\ (In zone (snd (ThermalMonitor.find_thermal_zones h)) <->
      exists pattern,
        In pattern ThermalMonitor.gpu_thermal_paths
        /\ In zone (ThermalMonitor.glob h pattern)).
Proof.
  unfold ThermalMonitor.find_thermal_zones. cbn [fst snd].
  rewrite !ZoneFacts.expand_In. split; split.
  - intros [p [Hp [[Hs _] | [_ [-> He]]]]]; [|auto].
    exfalso. cbn in Hp.
    repeat (destruct Hp as [<- | Hp]; [discriminate Hs|]). contradiction.
  - intros [Hin He]. exists zone. split; [exact Hin|]. right.
    split; [|auto]. cbn in Hin.
    repeat (destruct Hin as [<- | Hin]; [reflexivity|]). contradiction.
  - intros [p [Hp [[_ Hz] | [Hs _]]]]; [eauto|].
    exfalso. cbn in Hp.
    repeat (destruct Hp as [<- | Hp]; [discriminate Hs|]). contradiction.
  - intros [p [Hp Hz]]. exists p. split; [exact Hp|]. left.
    split; [|exact Hz]. cbn in Hp.
    repeat (destruct Hp as [<- | Hp]; [reflexivity|]). contradiction.
Qed.

(** X14. A domain reading depends on the set of zones only, not on their
    order or on how often a zone is listed: two lists with the same zones
    give no reading both, or readings that are equal as numbers. *)
Theorem sample_depends_on_zone_set
    (h : ThermalMonitor.host) (zones zones' : list string) :
  (forall zone, In zone zones <-> In zone zones') ->
  match ThermalMonitor.max_or_none (ThermalMonitor.collect h zones),
        ThermalMonitor.max_or_none (ThermalMonitor.collect h zones') with
  | Some m, Some m' => (m == m')%Q
  | None, None => True
  | _, _ => False
  end.
Proof.
  intros Hsame.
  assert (Hin : forall v, In v (ThermalMonitor.collect h zones)
                          <-> In v (ThermalMonitor.collect h zones')).
  { intros v. rewrite !ThermalFacts.collect_In.
    split; intros [z [Hz Hr]]; exists z; split; auto; now apply Hsame. }
  destruct (ThermalFacts.max_or_none_spec (ThermalMonitor.collect h zones))
    as [Hn Hm].
  destruct (ThermalFacts.max_or_none_spec (ThermalMonitor.collect h zones'))
    as [Hn' Hm'].
  destruct (ThermalMonitor.max_or_none (ThermalMonitor.collect h zones))
    as [m|] eqn:E,
    (ThermalMonitor.max_or_none (ThermalMonitor.collect h zones'))
    as [m'|] eqn:E'.
  - destruct (Hm m eq_refl) as [Hi Hu]. destruct (Hm' m' eq_refl) as [Hi' Hu'].
    apply Qle_antisym; [apply Hu', Hin, Hi | apply Hu, Hin, Hi'].
  - destruct (Hm m eq_refl) as [Hi _]. apply Hin in Hi.
    rewrite (proj1 Hn' eq_refl) in Hi. contradiction.
  - destruct (Hm' m' eq_refl) as [Hi' _]. apply Hin in Hi'.
    rewrite (proj1 Hn eq_refl) in Hi'. contradiction.
  - exact I.
Qed.

Lemma sample_depends_on_zone_set_witness :
  match ThermalMonitor.max_or_none
          (ThermalMonitor.collect Fixtures.both_sensors
             [Fixtures.zone0; Fixtures.gpu_hwmon]),
        ThermalMonitor.max_or_none
          (ThermalMonitor.collect Fixtures.both_sensors
             [Fixtures.gpu_hwmon; Fixtures.zone0; Fixtures.gpu_hwmon]) with
  | Some m, Some m' => (m == m')%Q
  | None, None => True
  | _, _ => False
  end.
Proof.
  apply (sample_depends_on_zone_set Fixtures.both_sensors
           [Fixtures.zone0; Fixtures.gpu_hwmon]
           [Fixtures.gpu_hwmon; Fixtures.zone0; Fixtures.gpu_hwmon]).
  intros zone. cbn [In]. tauto.
Defined.

(** ** FanCurve: profiles and the configuration file *)

Module ProfileFacts.

Import FanCurve FanCurveFile.

Lemma lookup_cases name :
  (lookup name profiles = None
   /\ ~ In name ["gaming"; "quiet"; "balanced"])
  \/ (exists p, lookup name profiles = Some p
                /\ In (name, p) profiles).
Proof.
  cbn [lookup profiles].
  destruct (String.eqb name "gaming") eqn:E1;
    [apply String.eqb_eq in E1; subst; right; eexists; split;
     [reflexivity | now left]|].
  destruct (String.eqb name "quiet") eqn:E2;
    [apply String.eqb_eq in E2; subst; right; eexists; split;
     [reflexivity | right; now left]|].
  destruct (String.eqb name "balanced") eqn:E3;
    [apply String.eqb_eq in E3; subst; right; eexists; split;
     [reflexivity | right; right; now left]|].
  left. split; [reflexivity|].
  apply String.eqb_neq in E1, E2, E3.
  intros [H | [H | [H | []]]]; congruence.
Qed.

Lemma lookup_In name p : In (name, p) profiles -> lookup name profiles = Some p.
Proof.
  intros [[= <- <-] | [[= <- <-] | [[= <- <-] | []]]]; reflexivity.
Qed.

Lemma generate_known name p fc :
  lookup name profiles = Some p ->
  generate_profile name fc
  = print (Applied name)
      (save_config {| config := p; on_disk := on_disk fc;
                      printed := printed fc |}).
Proof. intros H. unfold generate_profile. now rewrite H. Qed.

Lemma save_config_keeps_config fc : config (save_config fc) = config fc.
Proof. unfold save_config. now destruct (writable (on_disk fc)). Qed.

(** What every shipped profile satisfies. *)
Lemma profile_sound name p :
  In (name, p) profiles ->
  cpu_curve p <> [] /\ gpu_curve p <> []
  /\ Spec.ascending (cpu_curve p) = true
  /\ Spec.ascending (gpu_curve p) = true
  /\ Spec.duties_ok (cpu_curve p) = true
  /\ Spec.duties_ok (gpu_curve p) = true
  /\ CurveShape.rising (cpu_curve p) = true
  /\ CurveShape.rising (gpu_curve p) = true
  /\ 0 <= get_hysteresis p.
Proof.
  intros [[= <- <-] | [[= <- <-] | [[= <- <-] | []]]];
    repeat split; try discriminate; reflexivity.
Qed.

End ProfileFacts.

(** X15. [generate_profile] accepts exactly the names gaming, quiet and
    balanced. For any other name it leaves the configuration and the file
    untouched. For an accepted name the configuration it installs has
    curves with strictly ascending temperatures and with duties that are
    percentages and never fall, and a band that is not negative; with it
    [calculate_fan_speed] returns a percentage for every reading and every
    current percentage, on both curves. *)
Theorem generate_profile_installs_sound_curves
    (profile_name : string) (fc : FanCurveFile.fan_curve) :
  let fc' := FanCurveFile.generate_profile profile_name fc in
  let cfg := FanCurveFile.config fc' in
  (~ In profile_name ["gaming"; "quiet"; "balanced"]
   /\ cfg = FanCurveFile.config fc
   /\ FanCurveFile.on_disk fc' = FanCurveFile.on_disk fc)
  \/ (In profile_name ["gaming"; "quiet"; "balanced"]
      /\ Spec.ascending (FanCurve.cpu_curve cfg) = true
      /\ Spec.ascending (FanCurve.gpu_curve cfg) = true
      /\ CurveShape.rising (FanCurve.cpu_curve cfg) = true
      /\ CurveShape.rising (FanCurve.gpu_curve cfg) = true
      /\ 0 <= FanCurve.get_hysteresis cfg
      /\ forall temp current_fan,
           Spec.duty_ok current_fan = true ->
           (exists v,
              FanCurve.calculate_fan_speed cfg temp (FanCurve.cpu_curve cfg)
                current_fan = Ok v
              /\ Spec.duty_ok v = true)
           /\ (exists v,
                 FanCurve.calculate_fan_speed cfg temp (FanCurve.gpu_curve cfg)
                   current_fan = Ok v
                 /\ Spec.duty_ok v = true)).
Proof.
  intros fc' cfg. subst cfg fc'.
  destruct (ProfileFacts.lookup_cases profile_name)
    as [[Hnone Hnot] | [p [Hsome Hin]]].
  - left. unfold FanCurveFile.generate_profile. rewrite Hnone.
    repeat split; auto.
  - right. rewrite (ProfileFacts.generate_known _ _ _ Hsome).
    cbn [FanCurveFile.print FanCurveFile.config].
    rewrite ProfileFacts.save_config_keeps_config.
    cbn [FanCurveFile.config].
    destruct (ProfileFacts.profile_sound _ _ Hin)
      as [Hc [Hg [Hac [Hag [Hdc [Hdg [Hrc [Hrg Hb]]]]]]]].
    split.
    { destruct Hin as [[= <- _] | [[= <- _] | [[= <- _] | []]]]; cbn; auto. }
    repeat (split; [assumption|]).
    intros temp current_fan Hcur.
    assert (Hret : forall curve, curve <> [] -> Spec.duties_ok curve = true ->
              exists v, FanCurve.calculate_fan_speed p temp curve current_fan
                        = Ok v /\ Spec.duty_ok v = true).
    { intros curve Hne Hd.
      destruct (FanCurve.calculate_fan_speed p temp curve current_fan)
        as [v|e] eqn:E.
      - exists v. split; [reflexivity|].
        eapply DaemonFacts.calculate_duty_ok; eauto.
      - apply DaemonFacts.calculate_raises in E.
        destruct E as [_ [_ E]]. now elim Hne. }
    split; apply Hret; assumption.
Qed.

(** X16. A profile is reported as applied whether or not it could be
    saved. When the file can be written, the next start loads the profile.
    When it cannot, [generate_profile] still installs the profile in
    memory and prints that it was applied, after the save error; the file
    is untouched, so the next start loads what it would have loaded
    before. *)
Theorem profile_survives_restart_iff_saved
    (profile_name : string) (profile : FanCurve.config)
    (fc : FanCurveFile.fan_curve) :
  In (profile_name, profile) FanCurveFile.profiles ->
  let fc' := FanCurveFile.generate_profile profile_name fc in
  FanCurveFile.config fc' = profile
  /\ (FanCurveFile.writable (FanCurveFile.on_disk fc) = true ->
      FanCurveFile.printed fc'
      = (FanCurveFile.printed fc
         ++ [FanCurveFile.Saved; FanCurveFile.Applied profile_name])%list
      /\ FanCurveFile.config
           (FanCurveFile.load_config (FanCurveFile.on_disk fc'))
         = profile)
  /\ (FanCurveFile.writable (FanCurveFile.on_disk fc) = false ->
      FanCurveFile.printed fc'
      = (FanCurveFile.printed fc
         ++ [FanCurveFile.SaveError; FanCurveFile.Applied profile_name])%list
      /\ FanCurveFile.on_disk fc' = FanCurveFile.on_disk fc).
Proof.
  intros Hin fc'. subst fc'.
  rewrite (ProfileFacts.generate_known _ _ _ (ProfileFacts.lookup_In _ _ Hin)).
  unfold FanCurveFile.save_config. cbn [FanCurveFile.on_disk].
  destruct (FanCurveFile.writable (FanCurveFile.on_disk fc)) eqn:Hw;
    cbn; rewrite <- app_assoc; repeat split; try discriminate; reflexivity.
Qed.

Lemma profile_survives_restart_iff_saved_witness :
  FanCurveFile.config
    (FanCurveFile.generate_profile "quiet"
       {| FanCurveFile.config := FanCurve.default_config;
          FanCurveFile.on_disk := {| FanCurveFile.file := FanCurveFile.Missing;
                                     FanCurveFile.writable := false |};
          FanCurveFile.printed := [] |})
  = FanCurveFile.quiet.
Proof.
  apply (profile_survives_restart_iff_saved "quiet" FanCurveFile.quiet).
  right. now left.
Defined.

(** ** FanCurveController: the status report *)

Module StatusFacts.

Import PyNumber Status.

Lemma shown_raises temp e :
  shown temp = Raise e <->
  exists z, temp = Some (Int z) /\ z <> 0 /\ of_int z = Raise e.
Proof.
  unfold shown, format_1f. destruct temp as [[z|x]|]; cbn [is_true to_float].
  - destruct (z =? 0) eqn:Hz; cbn [negb].
    + apply Z.eqb_eq in Hz. split; [discriminate|].
      intros [z' [[= <-] [Hne _]]]. now elim Hne.
    + apply Z.eqb_neq in Hz.
      destruct (of_int z) as [y|e0] eqn:Hy; cbn [rbind].
      * split; [discriminate|]. intros [z' [Hz' [_ H]]].
        injection Hz' as ->. rewrite Hy in H. discriminate H.
      * split.
        -- intros [= <-]. exists z. auto.
        -- intros [z' [Hz' [_ H]]]. injection Hz' as ->.
           rewrite Hy in H. now injection H as <-.
  - destruct (negb (is_zero x)); cbn [rbind]; split; try discriminate;
      intros [z [H _]]; discriminate H.
  - split; [discriminate|]. intros [z [H _]]. discriminate H.
Qed.

Lemma shown_returns temp line :
  shown temp = Ok line ->
  (line = None <->
   temp = None \/ exists t, temp = Some t /\ is_true t = false)
  /\ forall t, line = Some t -> temp = Some t.
Proof.
  unfold shown. destruct temp as [t|].
  - destruct (is_true t) eqn:Ht.
    + destruct (format_1f t); cbn [rbind]; [|discriminate].
      intros [= <-]. split.
      * split; [discriminate|].
        intros [H | [t' [[= <-] H]]]; [discriminate H | congruence].
      * intros t' [= <-]. reflexivity.
    + intros [= <-]. split.
      * split; [|reflexivity]. intros _. right. eauto.
      * discriminate.
  - intros [= <-]. split.
    + split; [now left | reflexivity].
    + discriminate.
Qed.

End StatusFacts.

(** The status report when the read of a sensor fails with an I/O error,
    and with the sensor locked instead. *)
Example show_status_faulty_sensor (ep : FanController.endpoint) :
  Status.show_status Fixtures64.faulty ep = Raise OSError
  /\ Status.show_status Fixtures64.locked
       {| FanController.available := true; FanController.content := "41,67" |}
     = Ok [Status.Header;
           Status.CpuTemperature (Some (Fixtures64.reading 45000));
           Status.GpuTemperature None;
           Status.FanSpeeds (Some (41, 67))].
Proof. split; vm_compute; reflexivity. Qed.


(** ** FanCurveController: what the result of a cycle tells *)

(** X19. The boolean returned by a cycle tells whether the duties
    changed. When [run_once] returns [False] the last duties and the text
    of the control file are as before. When it returns [True] both readings
    were present, the cycle made exactly one call of [set_fan_speed], which
    succeeded, then printed the change; the last duties are the two
    computed duties, and at least one of them is new. *)
Theorem run_once_result_tells_change
    (cfg : FanCurve.config) (h : ThermalMonitor.host)
    (c : FanCurveController.controller) :
  let r := fst (FanCurveController.run_once cfg h c) in
  let c' := snd (FanCurveController.run_once cfg h c) in
  (r = Ok false ->
   FanCurveController.last_cpu_fan c' = FanCurveController.last_cpu_fan c
   /\ FanCurveController.last_gpu_fan c' = FanCurveController.last_gpu_fan c
   /\ FanController.content (FanCurveController.endpoint c')
      = FanController.content (FanCurveController.endpoint c)
   /\ forall a b,
        ~ In (FanCurveController.SetFanSpeed a b true)
             (skipn (List.length (FanCurveController.trace c))
                    (FanCurveController.trace c')))
  /\ (r = Ok true ->
      exists ct gt a b,
        ThermalMonitor.get_cpu_temp h = Some ct
        /\ ThermalMonitor.get_gpu_temp h = Some gt
        /\ FanCurve.calculate_fan_speed cfg (Some ct) (FanCurve.cpu_curve cfg)
             (FanCurveController.last_cpu_fan c) = Ok a
        /\ FanCurve.calculate_fan_speed cfg (Some gt) (FanCurve.gpu_curve cfg)
             (FanCurveController.last_gpu_fan c) = Ok b
        /\ (a <> FanCurveController.last_cpu_fan c
            \/ b <> FanCurveController.last_gpu_fan c)
        /\ FanCurveController.last_cpu_fan c' = a
        /\ FanCurveController.last_gpu_fan c' = b
        /\ FanCurveController.trace c'
           = (FanCurveController.trace c
              ++ [FanCurveController.SetFanSpeed a b true;
                  FanCurveController.DutyChanged ct gt a b])%list).
Proof.
  intros r c'. subst r c'. split.
  - CycleFacts.split_cycle h; intros Hr; try discriminate Hr.
    all: repeat split; try reflexivity.
    all: try (now destruct (FanCurveController.endpoint c)).
    all: intros a b;
      rewrite ?skipn_app, ?Nat.sub_diag, ?skipn_all, ?app_nil_l;
      cbn [skipn In]; intros Hin;
      repeat (destruct Hin as [Hin | Hin]; [discriminate Hin|]);
      exact Hin.
  - intros Hr.
    destruct (ReportFacts.run_once_true cfg h c Hr)
      as [ct [gt [a [b [Hcpu [Hgpu [Ha [Hb [Hne [_ Hc']]]]]]]]]].
    exists ct, gt, a, b. rewrite Hc'. cbn. auto 10.
Qed.
